(** * crypto-dagster-pipeline: validation and storage of market records

    A shallow embedding of [models.py] (the [CryptoPrice] schema and its field
    validators) and of the two assets of [assets.py] that the specification is
    about: [validate_crypto_data_asset] and [store_validated_crypto_data].

    The repository's code sits on three libraries.  What the code itself
    writes is embedded as it stands; what the libraries do is modelled as
    follows.
    - pydantic (v2, lax mode): the per-type input validators and the way a
      model collects one error per failing field are written out below; the
      parsing of a numeric string is left to the functions [str_to_int] and
      [str_to_float].
    - pandas: the frame built from a list of dicts has the keys of the dicts
      as columns, in the order in which they are first met; dtype inference
      ([is_object_dtype]) and the parsing of a timestamp ([parse_timestamp])
      are taken as functions.
    - DuckDB: [INSERT INTO t SELECT * FROM df] binds the columns by position
      and is refused when their number differs from the table's; the cast of
      one cell to a column type is the function [duckdb_cast]. *)

From Stdlib Require Import ZArith QArith Qabs List String Ascii Bool Lia.
From Stdlib Require Import DecimalString.
Import ListNotations.
Set Warnings "-register-all".
Local Open Scope string_scope.
Local Open Scope list_scope.

(* ------------------------------------------------------------------ *)
(** ** Python values *)

(** A Python [float]: a finite number, or one of the three special values
    that [json] and arithmetic can produce. *)
Inductive PyFloat : Type :=
| Finite (q : Q)
| NaN
| PosInf
| NegInf.

(** The values a decoded JSON document is made of. *)
Inductive Value : Type :=
| VNone
| VBool (b : bool)
| VInt (z : Z)
| VFloat (f : PyFloat)
| VStr (s : string)
| VList (l : list Value)
| VDict (d : list (string * Value)).

(** A raw record is a [dict] with string keys; the order of the keys is the
    insertion order, which pandas reads when it lays out columns. *)
Definition RawRecord : Type := list (string * Value).

(** [d.get(k)] / [k in d]. *)
Fixpoint dict_get (d : RawRecord) (k : string) : option Value :=
  match d with
  | [] => None
  | (k', v) :: rest => if String.eqb k' k then Some v else dict_get rest k
  end.

Definition dict_keys (d : RawRecord) : list string := map fst d.

(** Outcome of a computation that may raise. *)
Inductive result (E A : Type) : Type :=
| Ok (a : A)
| Err (e : E).
Arguments Ok {E A} a.
Arguments Err {E A} e.

Definition bind {E A B : Type} (m : result E A) (k : A -> result E B) : result E B :=
  match m with
  | Ok a => k a
  | Err e => Err e
  end.

Notation "x <- m ;; k" := (bind m (fun x => k))
  (at level 61, m at next level, right associativity).

(** Comparisons of Python numbers with an integer literal.  A comparison
    with [nan] is false. *)
Definition Qltb (x y : Q) : bool := (Qnum x * QDen y <? Qnum y * QDen x)%Z.

Definition float_lt (f : PyFloat) (n : Z) : bool :=
  match f with
  | Finite q => Qltb q (inject_Z n)
  | NegInf => true
  | NaN | PosInf => false
  end.

Definition float_gt (f : PyFloat) (n : Z) : bool :=
  match f with
  | Finite q => Qltb (inject_Z n) q
  | PosInf => true
  | NaN | NegInf => false
  end.

Definition float_abs (f : PyFloat) : PyFloat :=
  match f with
  | Finite q => Finite (Qabs q)
  | NaN => NaN
  | PosInf | NegInf => PosInf
  end.

(** [float.is_integer()] and the truncation used once it holds. *)
Definition Q_is_integer (q : Q) : bool := (Qnum q mod QDen q =? 0)%Z.
Definition Q_to_Z (q : Q) : Z := (Qnum q / QDen q)%Z.

(** An integral float is taken as an [int] when it lies strictly between
    [i64::MIN] and [i64::MAX] as floats, that is between [-2^63] and [2^63]. *)
Definition two_63 : Z := 9223372036854775808.

Definition float_fits_i64 (q : Q) : bool :=
  Qltb (inject_Z (- two_63)) q && Qltb q (inject_Z two_63).

(** An [int] converts to a [float] unless it rounds past the largest double:
    from [2^1024 - 2^970] on, Python raises [OverflowError]. *)
Definition double_overflow : Z := Z.shiftl 1 1024 - Z.shiftl 1 970.

Definition int_fits_double (z : Z) : bool := (Z.abs z <? double_overflow)%Z.

(* ------------------------------------------------------------------ *)
(** ** [re.match(r'^[a-z0-9]+$', v)] *)

Definition newline : ascii := ascii_of_nat 10.

(** The character class [[a-z0-9]]. *)
Definition lower_alnum (c : ascii) : bool :=
  let n := nat_of_ascii c in
  ((97 <=? n) && (n <=? 122) || (48 <=? n) && (n <=? 57))%nat.

(** [$] without [re.MULTILINE]: at the end of the string, or just before a
    newline that is the last character. *)
Definition at_dollar (s : string) : bool :=
  match s with
  | EmptyString => true
  | String c EmptyString => Ascii.eqb c newline
  | _ => false
  end.

(** [[a-z0-9]*$] from the current position. *)
Fixpoint class_star_dollar (s : string) : bool :=
  at_dollar s ||
  match s with
  | EmptyString => false
  | String c rest => lower_alnum c && class_star_dollar rest
  end.

(** [^[a-z0-9]+$], matched from the start of the string. *)
Definition re_match_symbol (s : string) : bool :=
  match s with
  | EmptyString => false
  | String c rest => lower_alnum c && class_star_dollar rest
  end.

(* ------------------------------------------------------------------ *)
(** ** pydantic: errors, annotations and the core validators *)

(** The [type] of an entry of [ValidationError.errors()]. *)
Inductive ErrorType : Type :=
| missing
| string_type
| int_type
| int_parsing
| int_from_float
| int_parsing_size
| finite_number
| float_type
| float_parsing
| dict_type
| value_error (m : string).

(** The [msg] of an entry. *)
Definition error_msg (t : ErrorType) : string :=
  match t with
  | missing => "Field required"
  | string_type => "Input should be a valid string"
  | int_type => "Input should be a valid integer"
  | int_parsing => "Input should be a valid integer, unable to parse string as an integer"
  | int_from_float => "Input should be a valid integer, got a number with a fractional part"
  | int_parsing_size => "Unable to parse input string as an integer, exceeded maximum size"
  | finite_number => "Input should be a finite number"
  | float_type => "Input should be a valid number"
  | float_parsing => "Input should be a valid number, unable to parse string as a number"
  | dict_type => "Input should be a valid dictionary"
  | value_error m => "Value error, " ++ m
  end.

(** One entry of [errors()]: [loc] is the field, [input] the offending
    value. *)
Record ErrorDetails : Type := mkError {
  err_type : ErrorType;
  err_loc : string;
  err_input : Value
}.

Definition err_msg (e : ErrorDetails) : string := error_msg (err_type e).

(** The type annotations used by [CryptoPrice]. *)
Inductive Annotation : Type :=
| Str
| Int
| Float
| DictStrAny
| Optional (a : Annotation).

(** A value after type validation. *)
Inductive Validated : Type :=
| MNone
| MStr (s : string)
| MInt (z : Z)
| MFloat (f : PyFloat)
| MDict (d : list (string * Value)).

(** Python exceptions that leave an asset. *)
Inductive Exception : Type :=
| ValueError (m : string)
| TypeError (m : string)
| AttributeError (m : string)
| ZeroDivisionError
| BinderException
| ConversionException.

(** Names of the 27 fields, in the order of the class body. *)
Definition positive_value_fields : list string :=
  ["current_price"; "market_cap"; "total_volume"; "high_24h"; "low_24h"].

Definition percentage_fields : list string :=
  ["price_change_percentage_24h"; "market_cap_change_percentage_24h"].

Definition mem (x : string) (l : list string) : bool := existsb (String.eqb x) l.

(** One attribute of the model: [name: annotation = Field(...)] is required,
    [name: Optional[a] = Field(None)] defaults to [None]. *)
Record FieldInfo : Type := mkField {
  field_name : string;
  annotation : Annotation;
  required : bool
}.

Definition CryptoPrice_fields : list FieldInfo :=
  [ mkField "id" Str true;
    mkField "symbol" Str true;
    mkField "name" Str true;
    mkField "image" Str true;
    mkField "current_price" Float true;
    mkField "market_cap" Int true;
    mkField "market_cap_rank" Int true;
    mkField "fully_diluted_valuation" (Optional Int) false;
    mkField "total_volume" Int true;
    mkField "high_24h" Float true;
    mkField "low_24h" Float true;
    mkField "price_change_24h" Float true;
    mkField "price_change_percentage_24h" Float true;
    mkField "market_cap_change_24h" Float true;
    mkField "market_cap_change_percentage_24h" Float true;
    mkField "circulating_supply" Float true;
    mkField "total_supply" (Optional Float) false;
    mkField "max_supply" (Optional Float) false;
    mkField "ath" Float true;
    mkField "ath_change_percentage" Float true;
    mkField "ath_date" Str true;
    mkField "atl" Float true;
    mkField "atl_change_percentage" Float true;
    mkField "atl_date" Str true;
    mkField "roi" (Optional DictStrAny) false;
    mkField "last_updated" Str true;
    mkField "fetched_at" (Optional Str) false ].

(** *** The four [@field_validator] functions of [CryptoPrice] *)

(** [if not re.match(r'^[a-z0-9]+$', v): raise ValueError(...)] *)
Definition validate_symbol (v : Validated) : result string Validated :=
  match v with
  | MStr s =>
      if negb (re_match_symbol s)
      then Err "Symbol must be lowercase alphanumeric"
      else Ok v
  | _ => Ok v
  end.

(** [if v < 0: raise ValueError(...)] *)
Definition validate_positive_values (v : Validated) : result string Validated :=
  let lt0 := match v with
             | MInt z => (z <? 0)%Z
             | MFloat f => float_lt f 0
             | _ => false
             end in
  if lt0 then Err "Price and volume values must be positive" else Ok v.

(** [if v <= 0: raise ValueError(...)] *)
Definition validate_rank (v : Validated) : result string Validated :=
  let le0 := match v with
             | MInt z => (z <=? 0)%Z
             | MFloat (Finite q) => negb (Qltb 0 q)
             | MFloat NegInf => true
             | _ => false
             end in
  if le0 then Err "Market cap rank must be positive" else Ok v.

(** [if abs(v) > 1000: raise ValueError(...)] *)
Definition validate_percentage (v : Validated) : result string Validated :=
  let big := match v with
             | MInt z => (1000 <? Z.abs z)%Z
             | MFloat f => float_gt (float_abs f) 1000
             | _ => false
             end in
  if big then Err "Percentage change seems unreasonable" else Ok v.

(** The decorator arguments: which function runs after the type validation of
    which field. *)
Definition field_validator (name : string)
  : option (Validated -> result string Validated) :=
  if String.eqb name "symbol" then Some validate_symbol
  else if mem name positive_value_fields then Some validate_positive_values
  else if String.eqb name "market_cap_rank" then Some validate_rank
  else if mem name percentage_fields then Some validate_percentage
  else None.

Section Pipeline.

(** pydantic's lax conversion of a string to an [int] and to a [float]. *)
Variable str_to_int : string -> option Z.
Variable str_to_float : string -> option PyFloat.

(** Python's [str(value)], used by the f-string of a diagnostic. *)
Variable py_str : Value -> string.

(** Type validation of an input against an annotation, in lax mode. *)
Fixpoint core_validate (a : Annotation) (v : Value) : result ErrorType Validated :=
  match a with
  | Str =>
      match v with
      | VStr s => Ok (MStr s)
      | _ => Err string_type
      end
  | Int =>
      match v with
      | VInt z => Ok (MInt z)
      | VBool b => Ok (MInt (if b then 1 else 0))
      | VFloat (Finite q) =>
          if Q_is_integer q
          then if float_fits_i64 q then Ok (MInt (Q_to_Z q))
               else Err int_parsing_size
          else Err int_from_float
      | VFloat _ => Err finite_number
      | VStr s =>
          match str_to_int s with
          | Some z => Ok (MInt z)
          | None => Err int_parsing
          end
      | _ => Err int_type
      end
  | Float =>
      match v with
      | VFloat f => Ok (MFloat f)
      | VInt z =>
          if int_fits_double z then Ok (MFloat (Finite (inject_Z z)))
          else Err float_type
      | VBool b => Ok (MFloat (Finite (if b then 1 else 0)))
      | VStr s =>
          match str_to_float s with
          | Some f => Ok (MFloat f)
          | None => Err float_parsing
          end
      | _ => Err float_type
      end
  | DictStrAny =>
      match v with
      | VDict d => Ok (MDict d)
      | _ => Err dict_type
      end
  | Optional a' =>
      match v with
      | VNone => Ok MNone
      | _ => core_validate a' v
      end
  end.

(** Validation of one field of a record: a missing required key, then the
    type, then the field's own validator.  The [input] of a validator's error
    is the value as it was given. *)
Definition validate_field (record : RawRecord) (f : FieldInfo)
  : result ErrorDetails Validated :=
  match dict_get record (field_name f) with
  | None =>
      if required f
      then Err (mkError missing (field_name f) (VDict record))
      else Ok MNone
  | Some v =>
      match core_validate (annotation f) v with
      | Err t => Err (mkError t (field_name f) v)
      | Ok m =>
          match field_validator (field_name f) with
          | None => Ok m
          | Some check =>
              match check m with
              | Err msg => Err (mkError (value_error msg) (field_name f) v)
              | Ok m' => Ok m'
              end
          end
      end
  end.

Definition field_errors (record : RawRecord) (f : FieldInfo) : list ErrorDetails :=
  match validate_field record f with
  | Err e => [e]
  | Ok _ => []
  end.

Definition field_value (record : RawRecord) (f : FieldInfo)
  : list (string * Validated) :=
  match validate_field record f with
  | Err _ => []
  | Ok m => [(field_name f, m)]
  end.

(** [e.errors()]: every field is validated, in the order of the class body,
    and each failing field contributes its error. *)
Definition validation_errors (record : RawRecord) : list ErrorDetails :=
  flat_map (field_errors record) CryptoPrice_fields.

(** [CryptoPrice.model_validate(record)]: the model, or [ValidationError]
    carrying the errors.  Keys that are not fields are ignored
    ([extra = "ignore"]). *)
Definition model_validate (record : RawRecord)
  : result (list ErrorDetails) (list (string * Validated)) :=
  match validation_errors record with
  | [] => Ok (flat_map (field_value record) CryptoPrice_fields)
  | errs => Err errs
  end.

(* ------------------------------------------------------------------ *)
(** ** [validate_crypto_data_asset] *)

(** An entry of [invalid_records]. *)
Record InvalidRecord : Type := mkInvalid {
  record_index : nat;
  record_data : RawRecord;
  errors : list string
}.

(** [f"Field '{field}': {value} - {message}"] *)
Definition error_detail (e : ErrorDetails) : string :=
  "Field '" ++ err_loc e ++ "': " ++ py_str (err_input e) ++ " - " ++ err_msg e.

(** The [for i, record in enumerate(raw_data)] loop, from index [i] on, with
    the two lists as they stand. *)
Fixpoint validation_loop (i : nat) (raw_data : list RawRecord)
    (valid_records : list RawRecord) (invalid_records : list InvalidRecord)
  : list RawRecord * list InvalidRecord :=
  match raw_data with
  | [] => (valid_records, invalid_records)
  | record :: rest =>
      match model_validate record with
      | Ok _ =>
          validation_loop (S i) rest (valid_records ++ [record]) invalid_records
      | Err errs =>
          let error_details := map error_detail errs in
          validation_loop (S i) rest valid_records
            (invalid_records ++ [mkInvalid i record error_details])
      end
  end.

(** [len(valid_records)/total_records]: true division. *)
Definition py_div (a b : nat) : result Exception Q :=
  match b with
  | O => Err ZeroDivisionError
  | S _ => Ok (Z.of_nat a # Pos.of_nat b)
  end.

(** [x.upper()] needs a string. *)
Definition py_upper (v : Value) : result Exception unit :=
  match v with
  | VStr _ => Ok tt
  | _ => Err (AttributeError "object has no attribute 'upper'")
  end.

(** [f"{x:,.2f}"] needs a number. *)
Definition py_format_f (v : Value) : result Exception unit :=
  match v with
  | VInt _ | VFloat _ | VBool _ => Ok tt
  | VStr _ => Err (ValueError "Unknown format code 'f' for object of type 'str'")
  | _ => Err (TypeError "unsupported format string")
  end.

Definition dict_get_default (d : RawRecord) (k : string) (default : Value) : Value :=
  match dict_get d k with
  | Some v => v
  | None => default
  end.

(** The arguments of the "Sample valid record" log line. *)
Definition log_sample_valid (valid_records : list RawRecord) : result Exception unit :=
  match valid_records with
  | [] => Ok tt
  | sample :: _ =>
      _ <- py_upper (dict_get_default sample "symbol" (VStr "N/A")) ;;
      py_format_f (dict_get_default sample "current_price" (VInt 0))
  end.

(** The asset.  The log calls are kept only for what evaluating their
    arguments can raise: the success rate and the sample line. *)
Definition validate_crypto_data_asset
    (fetch_crypto_data generate_test_crypto_data : option (list RawRecord))
  : result Exception (list RawRecord) :=
  raw_data <-
    match fetch_crypto_data, generate_test_crypto_data with
    | Some d, _ => Ok d
    | None, Some d => Ok d
    | None, None => Err (ValueError "No data provided for validation")
    end ;;
  let total_records := List.length raw_data in
  let '(valid_records, invalid_records) := validation_loop 0 raw_data [] [] in
  success_rate <- py_div (List.length valid_records) total_records ;;
  _ <- log_sample_valid valid_records ;;
  Ok valid_records.

(* ------------------------------------------------------------------ *)
(** ** pandas: the frame of [store_validated_crypto_data] *)

(** A frame: the column labels, and one list of cells per record. *)
Record DataFrame : Type := mkFrame {
  columns : list string;
  rows : list (list Value)
}.

(** Keys of one more dict, each appended when it has not been met yet. *)
Fixpoint add_new_keys (seen keys : list string) : list string :=
  match keys with
  | [] => seen
  | k :: ks =>
      if mem k seen then add_new_keys seen ks else add_new_keys (seen ++ [k]) ks
  end.

Definition frame_columns (records : list RawRecord) : list string :=
  fold_left (fun seen r => add_new_keys seen (dict_keys r)) records [].

(** A key that a record does not have is [NaN] in its row. *)
Definition frame_row (cols : list string) (record : RawRecord) : list Value :=
  map (fun c => dict_get_default record c (VFloat NaN)) cols.

(** [pd.DataFrame(validate_crypto_data_asset)] on a list of dicts.  (The
    other branch, [item.model_dump()], is for model instances; the asset
    upstream returns the raw dicts.)  A [None] is kept as it is given, where
    pandas turns it into [NaN] in a numeric column: both are nulls for the
    two passes below and for the cast. *)
Definition pd_DataFrame (records : list RawRecord) : DataFrame :=
  let cols := frame_columns records in
  mkFrame cols (map (frame_row cols) records).

Fixpoint index_of (c : string) (cols : list string) : option nat :=
  match cols with
  | [] => None
  | c' :: rest =>
      if String.eqb c' c then Some O
      else match index_of c rest with
           | Some j => Some (S j)
           | None => None
           end
  end.

Fixpoint set_nth {A : Type} (j : nat) (x : A) (l : list A) : list A :=
  match l, j with
  | [], _ => []
  | _ :: t, O => x :: t
  | h :: t, S j' => h :: set_nth j' x t
  end.

Definition cell (row : list Value) (j : nat) : Value := nth j row (VFloat NaN).

(** [df[col]] as a list of cells. *)
Definition column_values (df : DataFrame) (j : nat) : list Value :=
  map (fun r => cell r j) (rows df).

(** [df[col] = f(df[col])] for an [f] that works cell by cell and may look
    at the whole column. *)
Definition map_column (j : nat) (f : list Value -> Value -> Value) (df : DataFrame)
  : DataFrame :=
  let col := column_values df j in
  mkFrame (columns df) (map (fun r => set_nth j (f col (cell r j)) r) (rows df)).

(** pandas' dtype inference: whether a column of these cells has dtype
    [object]. *)
Variable is_object_dtype : list Value -> bool.

Definition is_na (v : Value) : bool :=
  match v with
  | VNone | VFloat NaN => true
  | _ => false
  end.

(** [Series.fillna('')] on one cell. *)
Definition fillna_empty (v : Value) : Value := if is_na v then VStr "" else v.

(** [df.select_dtypes(include=['object']).columns], by position. *)
Definition object_columns (df : DataFrame) : list nat :=
  filter (fun j => is_object_dtype (column_values df j))
         (seq 0 (List.length (columns df))).

(** [for col in object_columns: df[col] = df[col].fillna('')] *)
Definition fillna_object_columns (df : DataFrame) : DataFrame :=
  fold_left (fun d j => map_column j (fun _ v => fillna_empty v) d)
            (object_columns df) df.

(** A timestamp as [strftime] reads it: a calendar date with a year of four
    digits, and a time of day. *)
Definition timestamp_in_range (y mo d h mi s : nat) : bool :=
  ((1000 <=? Z.of_nat y)%Z && (Z.of_nat y <=? 9999)%Z
   && (1 <=? mo) && (mo <=? 12) && (1 <=? d)
   && (d <=? 31) && (h <? 24) && (mi <? 60) && (s <? 60))%nat.

Record Timestamp : Type := mkTimestamp {
  year : nat;
  month : nat;
  day : nat;
  hour : nat;
  minute : nat;
  second : nat;
  in_range : timestamp_in_range year month day hour minute second = true
}.

(** What pandas' parser makes of a cell that is not null, given the column
    it stands in (the format is guessed per column); [None] is [NaT]. *)
Variable parse_timestamp : list Value -> Value -> option Timestamp.

(** [pd.to_datetime(df[col], errors="coerce")] on one cell: a null or an
    empty string is [NaT]. *)
Definition to_datetime_coerce (col : list Value) (v : Value) : option Timestamp :=
  match v with
  | VNone | VFloat NaN | VStr EmptyString => None
  | _ => parse_timestamp col v
  end.

Definition digit (n : nat) : ascii := ascii_of_nat (48 + n mod 10).

(** [n] in decimal on exactly [width] digits. *)
Fixpoint zero_padded (width n : nat) : string :=
  match width with
  | O => EmptyString
  | S w => zero_padded w (n / 10) ++ String (digit n) EmptyString
  end.

(** [ts.strftime('%Y-%m-%d %H:%M:%S')] *)
Definition strftime (ts : Timestamp) : string :=
  zero_padded 4 (year ts) ++ "-" ++ zero_padded 2 (month ts) ++ "-"
  ++ zero_padded 2 (day ts) ++ " " ++ zero_padded 2 (hour ts) ++ ":"
  ++ zero_padded 2 (minute ts) ++ ":" ++ zero_padded 2 (second ts).

(** [.dt.strftime(...).fillna('')]: [NaT] formats to a null, which is
    filled. *)
Definition datetime_text (t : option Timestamp) : Value :=
  match t with
  | Some ts => VStr (strftime ts)
  | None => VStr ""
  end.

Definition datetime_cols : list string :=
  ["ath_date"; "atl_date"; "last_updated"; "fetched_at"].

(** [for col in datetime_cols: if col in df.columns: ...] *)
Definition convert_datetime_column (df : DataFrame) (col : string) : DataFrame :=
  match index_of col (columns df) with
  | Some j => map_column j (fun c v => datetime_text (to_datetime_coerce c v)) df
  | None => df
  end.

Definition convert_datetime_columns (df : DataFrame) : DataFrame :=
  fold_left convert_datetime_column datetime_cols df.

(** The frame that the INSERT statement reads. *)
Definition cleaned_frame (records : list RawRecord) : DataFrame :=
  convert_datetime_columns (fillna_object_columns (pd_DataFrame records)).

(* ------------------------------------------------------------------ *)
(** ** DuckDB: the table [validated_crypto_data] *)

Inductive ColType : Type :=
| VARCHAR
| DOUBLE
| BIGINT
| INTEGER.

(** The column list of [create_table_sql]. *)
Definition create_table_sql : list (string * ColType) :=
  [ ("id", VARCHAR); ("symbol", VARCHAR); ("name", VARCHAR); ("image", VARCHAR);
    ("current_price", DOUBLE); ("market_cap", BIGINT); ("market_cap_rank", INTEGER);
    ("fully_diluted_valuation", DOUBLE); ("total_volume", BIGINT);
    ("high_24h", DOUBLE); ("low_24h", DOUBLE);
    ("price_change_24h", DOUBLE); ("price_change_percentage_24h", DOUBLE);
    ("market_cap_change_24h", DOUBLE); ("market_cap_change_percentage_24h", DOUBLE);
    ("circulating_supply", DOUBLE); ("total_supply", DOUBLE); ("max_supply", DOUBLE);
    ("ath", DOUBLE); ("ath_change_percentage", DOUBLE); ("ath_date", VARCHAR);
    ("atl", DOUBLE); ("atl_change_percentage", DOUBLE); ("atl_date", VARCHAR);
    ("last_updated", VARCHAR); ("fetched_at", VARCHAR); ("roi", VARCHAR) ].

(** A stored value, and whether it is NULL. *)
Variable DbValue : Type.
Variable db_is_null : DbValue -> bool.

(** The implicit cast of one cell of the frame to a column type; [None] when
    DuckDB refuses the conversion. *)
Variable duckdb_cast : ColType -> Value -> option DbValue.

Record Table : Type := mkTable {
  tbl_schema : list (string * ColType);
  tbl_rows : list (list DbValue)
}.

(** The file system and database as the asset sees them: the [data]
    directory, and the table when it exists. *)
Record Db : Type := mkDb {
  data_dir_exists : bool;
  table : option Table
}.

Definition db_path : string := "data/crypto_data.duckdb".

(** [data_dir.mkdir(parents=True, exist_ok=True)] *)
Definition mkdir (db : Db) : Db := mkDb true (table db).

(** [CREATE TABLE IF NOT EXISTS validated_crypto_data (...)] *)
Definition create_table_if_not_exists (t : option Table) : Table :=
  match t with
  | Some existing => existing
  | None => mkTable create_table_sql []
  end.

Fixpoint cast_row (types : list ColType) (row : list Value) : option (list DbValue) :=
  match types, row with
  | ty :: types', v :: row' =>
      match duckdb_cast ty v, cast_row types' row' with
      | Some x, Some xs => Some (x :: xs)
      | _, _ => None
      end
  | _, _ => Some []
  end.

Fixpoint cast_rows (types : list ColType) (rs : list (list Value))
  : option (list (list DbValue)) :=
  match rs with
  | [] => Some []
  | r :: rest =>
      match cast_row types r, cast_rows types rest with
      | Some x, Some xs => Some (x :: xs)
      | _, _ => None
      end
  end.

(** [INSERT INTO validated_crypto_data SELECT * FROM df]: the columns of the
    frame are bound to the columns of the table by position; the statement
    is refused when their numbers differ, and inserts nothing when a cast
    fails. *)
Definition insert_select (t : Table) (df : DataFrame) : result Exception Table :=
  if (List.length (columns df) =? List.length (tbl_schema t))%nat
  then match cast_rows (map snd (tbl_schema t)) (rows df) with
       | Some new_rows => Ok (mkTable (tbl_schema t) (tbl_rows t ++ new_rows))
       | None => Err ConversionException
       end
  else Err BinderException.

(** [SELECT COUNT( * ) FROM validated_crypto_data] *)
Definition count_rows (t : Table) : nat := List.length (tbl_rows t).

Fixpoint schema_lookup (name : string) (schema : list (string * ColType))
  : option (nat * ColType) :=
  match schema with
  | [] => None
  | (c, ty) :: rest =>
      if String.eqb c name then Some (O, ty)
      else match schema_lookup name rest with
           | Some (j, ty') => Some (S j, ty')
           | None => None
           end
  end.

Definition select_column (t : Table) (name : string)
  : result Exception (nat * ColType) :=
  match schema_lookup name (tbl_schema t) with
  | Some c => Ok c
  | None => Err BinderException
  end.

Definition stored_is_null (row : list DbValue) (j : nat) : bool :=
  match nth_error row j with
  | Some x => db_is_null x
  | None => true
  end.

(** [row[1].upper()] on a fetched value: a string column, not NULL. *)
Definition fetched_upper (row : list DbValue) (c : nat * ColType)
  : result Exception unit :=
  match snd c with
  | VARCHAR =>
      if stored_is_null row (fst c)
      then Err (AttributeError "object has no attribute 'upper'")
      else Ok tt
  | _ => Err (AttributeError "object has no attribute 'upper'")
  end.

(** [f"{row[2]:,.2f}"] on a fetched value: a numeric column, not NULL. *)
Definition fetched_format_f (row : list DbValue) (c : nat * ColType)
  : result Exception unit :=
  match snd c with
  | VARCHAR => Err (ValueError "Unknown format code 'f' for object of type 'str'")
  | _ =>
      if stored_is_null row (fst c)
      then Err (TypeError "unsupported format string")
      else Ok tt
  end.

Fixpoint for_each {A : Type} (l : list A) (body : A -> result Exception unit)
  : result Exception unit :=
  match l with
  | [] => Ok tt
  | x :: rest => _ <- body x ;; for_each rest body
  end.

(** [SELECT name, symbol, current_price, market_cap FROM validated_crypto_data
    LIMIT 3] and the log line of each row. *)
Definition log_sample_rows (t : Table) : result Exception unit :=
  _ <- select_column t "name" ;;
  symbol <- select_column t "symbol" ;;
  current_price <- select_column t "current_price" ;;
  market_cap <- select_column t "market_cap" ;;
  for_each (firstn 3 (tbl_rows t)) (fun row =>
    _ <- fetched_upper row symbol ;;
    _ <- fetched_format_f row current_price ;;
    fetched_format_f row market_cap).

(* ------------------------------------------------------------------ *)
(** ** [store_validated_crypto_data] *)

(** The asset: the state it leaves behind, and the path it returns or the
    exception it lets through. *)
Definition store_validated_crypto_data
    (validate_crypto_data_asset : list RawRecord) (db : Db)
  : Db * result Exception string :=
  let db := mkdir db in
  match validate_crypto_data_asset with
  | [] => (db, Ok db_path)
  | _ :: _ =>
      let df := cleaned_frame validate_crypto_data_asset in
      let t := create_table_if_not_exists (table db) in
      match insert_select t df with
      | Err e => (mkDb true (Some t), Err e)
      | Ok t' =>
          let total_rows := count_rows t' in
          match log_sample_rows t' with
          | Err e => (mkDb true (Some t'), Err e)
          | Ok _ => (mkDb true (Some t'), Ok db_path)
          end
      end
  end.

(** A location where nothing has been written yet. *)
Definition fresh_location : Db := mkDb false None.

(** The operator's reading of the row count: no table, no rows. *)
Definition total_rows (db : Db) : nat :=
  match table db with
  | Some t => count_rows t
  | None => O
  end.

(* ------------------------------------------------------------------ *)
(** ** Readings of the outcome used in the statements *)

(** Whether [model_validate] accepts a record, and whether one field of it
    fails. *)
Definition is_valid (record : RawRecord) : bool :=
  match model_validate record with
  | Ok _ => true
  | Err _ => false
  end.

Definition field_fails (record : RawRecord) (f : FieldInfo) : bool :=
  match validate_field record f with
  | Ok _ => false
  | Err _ => true
  end.

(** The fields that the diagnostics of a record cite. *)
Definition cited_fields (record : RawRecord) : list string :=
  map err_loc (validation_errors record).

(** [enumerate(raw_data)], counting from [i]. *)
Definition enumerate_from {A : Type} (i : nat) (l : list A) : list (nat * A) :=
  combine (seq i (List.length l)) l.

(** The entries that the loop appends to [invalid_records] for the records
    of [raw_data], the first of which has index [i]. *)
Fixpoint rejections (i : nat) (raw_data : list RawRecord) : list InvalidRecord :=
  match raw_data with
  | [] => []
  | record :: rest =>
      match model_validate record with
      | Ok _ => rejections (S i) rest
      | Err errs => mkInvalid i record (map error_detail errs) :: rejections (S i) rest
      end
  end.

(** [d[k] = v] on a dict: the key keeps its place when it is there. *)
Fixpoint dict_set (d : RawRecord) (k : string) (v : Value) : RawRecord :=
  match d with
  | [] => [(k, v)]
  | (k', v') :: rest =>
      if String.eqb k' k then (k, v) :: rest else (k', v') :: dict_set rest k v
  end.

(** [del d[k]] *)
Definition dict_del (d : RawRecord) (k : string) : RawRecord :=
  filter (fun kv => negb (String.eqb (fst kv) k)) d.

(** A record in the shape of the upstream API (27 keys, in its order). *)
Definition bitcoin : RawRecord :=
  [ ("id", VStr "bitcoin"); ("symbol", VStr "btc"); ("name", VStr "Bitcoin");
    ("image", VStr "https://coin-images.coingecko.com/coins/images/1/large/bitcoin.png");
    ("current_price", VFloat (Finite (432505 # 10)));
    ("market_cap", VInt 846000000000); ("market_cap_rank", VInt 1);
    ("fully_diluted_valuation", VInt 908000000000);
    ("total_volume", VInt 21500000000);
    ("high_24h", VFloat (Finite (43800 # 1))); ("low_24h", VFloat (Finite (42900 # 1)));
    ("price_change_24h", VFloat (Finite (-1205 # 10)));
    ("price_change_percentage_24h", VFloat (Finite (-28 # 100)));
    ("market_cap_change_24h", VFloat (Finite (-2300000000 # 1)));
    ("market_cap_change_percentage_24h", VFloat (Finite (-27 # 100)));
    ("circulating_supply", VFloat (Finite (19600000 # 1)));
    ("total_supply", VFloat (Finite (21000000 # 1)));
    ("max_supply", VFloat (Finite (21000000 # 1)));
    ("ath", VFloat (Finite (69045 # 1)));
    ("ath_change_percentage", VFloat (Finite (-374 # 10)));
    ("ath_date", VStr "2021-11-10T14:24:11.849Z");
    ("atl", VFloat (Finite (6781 # 100)));
    ("atl_change_percentage", VFloat (Finite (63680 # 1)));
    ("atl_date", VStr "2013-07-06T00:00:00.000Z");
    ("roi", VNone);
    ("last_updated", VStr "2024-01-15T10:30:45.123Z");
    ("fetched_at", VStr "2024-01-15T10:31:02.456789") ].

(** A second record of the same shape, with a nested [roi]. *)
Definition ethereum : RawRecord :=
  dict_set (dict_set (dict_set (dict_set (dict_set bitcoin
    "id" (VStr "ethereum")) "symbol" (VStr "eth")) "name" (VStr "Ethereum"))
    "market_cap_rank" (VInt 2))
    "roi" (VDict [("times", VFloat (Finite (55 # 1))); ("currency", VStr "btc")]).

(** A record as the synthetic generator leaves it when it drew no [roi]:
    the key is removed. *)
Definition bitcoin_without_roi : RawRecord := dict_del bitcoin "roi".

(** A record with a key that is not a field of the model. *)
Definition bitcoin_with_extra : RawRecord := bitcoin ++ [("sparkline", VList [])].

(** A string made of characters of [[a-z0-9]] only. *)
Fixpoint all_lower_alnum (s : string) : bool :=
  match s with
  | EmptyString => true
  | String c rest => lower_alnum c && all_lower_alnum rest
  end.

(** A raw value that is a negative number, and one that is zero. *)
Definition is_negative_number (v : Value) : bool :=
  match v with
  | VInt z => (z <? 0)%Z
  | VFloat f => float_lt f 0
  | _ => false
  end.

Definition is_zero_number (v : Value) : bool :=
  match v with
  | VInt z => (z =? 0)%Z
  | VFloat (Finite q) => (Qnum q =? 0)%Z
  | _ => false
  end.

(** The numeric fields annotated [float] among those required to be
    non-negative, and those annotated [int]. *)
Definition float_price_fields : list string := ["current_price"; "high_24h"; "low_24h"].
Definition integer_amount_fields : list string := ["market_cap"; "total_volume"].

(** The canonical text format: in a shape, an uppercase letter stands for
    a decimal digit and any other character for itself. *)
Definition is_digit (c : ascii) : bool :=
  let n := nat_of_ascii c in ((48 <=? n) && (n <=? 57))%nat.




(** A frame with [n] columns whose rows all have [n] cells. *)
Definition frame_width (df : DataFrame) (n : nat) : Prop :=
  List.length (columns df) = n /\ Forall (fun r => List.length r = n) (rows df).

(* ------------------------------------------------------------------ *)
(** ** Sample batches, and library functions to run the assets on them *)

Definition nonempty_string (v : option Value) : bool :=
  match v with
  | Some (VStr (String _ _)) => true
  | _ => false
  end.

(** Records that differ from [bitcoin] in one or two places. *)
Definition unnamed_coin : RawRecord :=
  dict_set (dict_set bitcoin "id" (VStr "")) "name" (VStr "").

Definition negative_price : RawRecord :=
  dict_set bitcoin "current_price" (VFloat (Finite (-5 # 1))).

Definition uppercase_symbol : RawRecord := dict_set bitcoin "symbol" (VStr "BTC").

Definition two_violations : RawRecord :=
  dict_set uppercase_symbol "current_price" (VFloat (Finite (-5 # 1))).

Definition fractional_market_cap : RawRecord :=
  dict_set bitcoin "market_cap" (VFloat (Finite (12345 # 100))).



(** Plain decimal numerals, with an optional minus sign. *)
Definition digit_value (c : ascii) : option nat :=
  if is_digit c then Some (nat_of_ascii c - 48)%nat else None.

Fixpoint decimal_value (acc : nat) (s : string) : option nat :=
  match s with
  | EmptyString => Some acc
  | String c rest =>
      match digit_value c with
      | Some d => decimal_value (10 * acc + d) rest
      | None => None
      end
  end.

Definition sample_str_to_int (s : string) : option Z :=
  match s with
  | EmptyString => None
  | String "-" (String c rest) =>
      option_map (fun n => (- Z.of_nat n)%Z) (decimal_value 0 (String c rest))
  | _ => option_map Z.of_nat (decimal_value 0 s)
  end.

Definition sample_str_to_float (s : string) : option PyFloat :=
  option_map (fun z => Finite (inject_Z z)) (sample_str_to_int s).

(** A rendering that agrees with [str()] on [None], booleans, integers,
    strings, integral floats and the special floats. *)
Definition sample_py_str (v : Value) : string :=
  match v with
  | VNone => "None"
  | VBool true => "True"
  | VBool false => "False"
  | VInt z => NilZero.string_of_int (Z.to_int z)
  | VFloat (Finite q) =>
      if Q_is_integer q
      then NilZero.string_of_int (Z.to_int (Q_to_Z q)) ++ ".0"
      else "?"
  | VFloat NaN => "nan"
  | VFloat PosInf => "inf"
  | VFloat NegInf => "-inf"
  | VStr s => s
  | VList _ => "[...]"
  | VDict _ => "{...}"
  end.

(** A column is held as [object] when a cell is a string, a dict or a list,
    or when every cell is [None]. *)
Definition sample_is_object_dtype (col : list Value) : bool :=
  existsb (fun v => match v with
                    | VStr _ | VDict _ | VList _ => true
                    | _ => false
                    end) col
  || forallb (fun v => match v with VNone => true | _ => false end) col.

Definition opt_bind {A B : Type} (o : option A) (k : A -> option B) : option B :=
  match o with
  | Some a => k a
  | None => None
  end.

Fixpoint read_digits (width acc : nat) (s : string) : option (nat * string) :=
  match width with
  | O => Some (acc, s)
  | S w =>
      match s with
      | EmptyString => None
      | String c rest =>
          match digit_value c with
          | Some d => read_digits w (10 * acc + d) rest
          | None => None
          end
      end
  end.

Definition read_char (c : ascii) (s : string) : option string :=
  match s with
  | String c' rest => if Ascii.eqb c c' then Some rest else None
  | EmptyString => None
  end.

Definition make_timestamp (y mo d h mi s : nat) : option Timestamp :=
  match bool_dec (timestamp_in_range y mo d h mi s) true with
  | left ok => Some (mkTimestamp y mo d h mi s ok)
  | right _ => None
  end.

(** ISO 8601 texts [YYYY-MM-DDTHH:MM:SS...]; what follows the seconds is not
    read. *)
Definition iso_timestamp (s : string) : option Timestamp :=
  opt_bind (read_digits 4 0 s) (fun '(y, s) =>
  opt_bind (read_char "-" s) (fun s =>
  opt_bind (read_digits 2 0 s) (fun '(mo, s) =>
  opt_bind (read_char "-" s) (fun s =>
  opt_bind (read_digits 2 0 s) (fun '(d, s) =>
  opt_bind (read_char "T" s) (fun s =>
  opt_bind (read_digits 2 0 s) (fun '(h, s) =>
  opt_bind (read_char ":" s) (fun s =>
  opt_bind (read_digits 2 0 s) (fun '(mi, s) =>
  opt_bind (read_char ":" s) (fun s =>
  opt_bind (read_digits 2 0 s) (fun '(se, _) =>
  make_timestamp y mo d h mi se))))))))))).

Definition sample_parse_timestamp (col : list Value) (v : Value) : option Timestamp :=
  match v with
  | VStr s => iso_timestamp s
  | _ => None
  end.

(** A store that keeps the cells as they are given. *)
Definition sample_cast (ty : ColType) (v : Value) : option Value := Some v.

(* ------------------------------------------------------------------ *)
(** ** The other functions of [models.py] and [assets.py] *)

(** [validate_crypto_data]: [[CryptoPrice( **record) for record in data]].
    The comprehension stops at the first record that raises. *)
Fixpoint validate_crypto_data (data : list RawRecord)
  : result (list ErrorDetails) (list (list (string * Validated))) :=
  match data with
  | [] => Ok []
  | record :: rest =>
      m <- model_validate record ;;
      ms <- validate_crypto_data rest ;;
      Ok (m :: ms)
  end.

(** [CryptoPriceList], built from model instances. *)
Record CryptoPriceList : Type := mkPriceList {
  pl_data : list (list (string * Validated));
  pl_count : Z;
  pl_fetched_at : Timestamp
}.

(** [validate_count]: [info.data] holds [data] when that field was valid.
    [if 'data' in info.data and v != len(info.data['data']): raise ...] *)
Definition validate_count (info_data : option (list (list (string * Validated))))
    (v : Z) : result string Z :=
  match info_data with
  | Some data =>
      if negb (v =? Z.of_nat (List.length data))%Z
      then Err "Count must match the number of records"
      else Ok v
  | None => Ok v
  end.

(** [CryptoPriceList(data=..., count=..., fetched_at=...)] on a list of
    instances, which the [data] field takes as they are. *)
Definition CryptoPriceList_init (data : list (list (string * Validated)))
    (count : Value) (fetched_at : Timestamp)
  : result (list ErrorDetails) CryptoPriceList :=
  match core_validate Int count with
  | Err t => Err [mkError t "count" count]
  | Ok (MInt z) =>
      match validate_count (Some data) z with
      | Err msg => Err [mkError (value_error msg) "count" count]
      | Ok z' => Ok (mkPriceList data z' fetched_at)
      end
  | Ok _ => Err [mkError int_type "count" count]
  end.

(** [datetime.now()] at the call of [create_crypto_price_list]. *)
Variable datetime_now : Timestamp.

Definition create_crypto_price_list (data : list RawRecord)
  : result (list ErrorDetails) CryptoPriceList :=
  validated_data <- validate_crypto_data data ;;
  CryptoPriceList_init validated_data
    (VInt (Z.of_nat (List.length validated_data))) datetime_now.

(** [x <= 0] on a Python value: numbers compare, anything else raises. *)
Definition py_le_zero (v : Value) : result Exception bool :=
  match v with
  | VInt z => Ok (z <=? 0)%Z
  | VBool b => Ok (negb b)
  | VFloat (Finite q) => Ok (negb (Qltb (inject_Z 0) q))
  | VFloat NegInf => Ok true
  | VFloat NaN | VFloat PosInf => Ok false
  | _ => Err (TypeError "'<=' not supported between these instances")
  end.

Definition legacy_required_fields : list string :=
  ["id"; "symbol"; "name"; "current_price"; "market_cap"].

Definition has_key (entry : RawRecord) (k : string) : bool :=
  match dict_get entry k with
  | Some _ => true
  | None => false
  end.

(** The [for i, entry in enumerate(data)] loop of the legacy check. *)
Fixpoint legacy_loop (data : list RawRecord) : result Exception bool :=
  match data with
  | [] => Ok true
  | entry :: rest =>
      let missing_fields :=
        filter (fun field => negb (has_key entry field)) legacy_required_fields in
      match missing_fields with
      | _ :: _ => Ok false
      | [] =>
          bad <- py_le_zero (dict_get_default entry "current_price" (VInt 0)) ;;
          if bad then Ok false else legacy_loop rest
      end
  end.

(** [validate_crypto_data_legacy] *)
Definition validate_crypto_data_legacy (data : list RawRecord)
  : result Exception bool :=
  match data with
  | [] => Ok false
  | _ :: _ => legacy_loop data
  end.

(** [datetime.now().isoformat()] at the i-th pass of the stamping loop. *)
Variable now_isoformat : nat -> string.

(** [for entry in data: entry['fetched_at'] = datetime.now().isoformat()] *)
Fixpoint stamp_entries (i : nat) (data : list RawRecord) : list RawRecord :=
  match data with
  | [] => []
  | entry :: rest =>
      dict_set entry "fetched_at" (VStr (now_isoformat i))
      :: stamp_entries (S i) rest
  end.

(** [fetch_crypto_data], from the decoded response on ([data =
    response.json()]): strict validation with the legacy check as fallback,
    the sample log line, the stamping.  Every exception is logged and raised
    again. *)
Definition fetch_crypto_data (response_json : list RawRecord)
  : result Exception (list RawRecord) :=
  let data := response_json in
  _ <- match validate_crypto_data data with
       | Ok _ => Ok tt
       | Err _ =>
           ok <- validate_crypto_data_legacy data ;;
           if negb ok then Err (ValueError "Invalid data received from API")
           else Ok tt
       end ;;
  _ <- match data with
       | [] => Ok tt
       | sample_crypto :: _ =>
           _ <- py_upper (dict_get_default sample_crypto "symbol" (VStr "N/A")) ;;
           py_format_f (dict_get_default sample_crypto "current_price" (VInt 0))
       end ;;
  Ok (stamp_entries 0 data).

(** [{k: v for k, v in record.items() if v is not None}], the last step of
    the synthetic generator on each record. *)
Definition drop_none (record : RawRecord) : RawRecord :=
  filter (fun kv => match snd kv with VNone => false | _ => true end) record.

(** The rows of the table, none when there is no table. *)
Definition stored_rows (db : Db) : list (list DbValue) :=
  match table db with
  | Some t => tbl_rows t
  | None => []
  end.

(** An entry of [invalid_records] with its index moved by [n]. *)
Definition shift_index (n : nat) (e : InvalidRecord) : InvalidRecord :=
  mkInvalid (n + record_index e) (record_data e) (errors e).

(** A clock for the sample runs: one second per pass. *)
Definition sample_now_isoformat (i : nat) : string :=
  "2024-01-15T10:31:" ++ zero_padded 2 i.

(** Records used below. *)
Definition string_price : RawRecord :=
  dict_set bitcoin "current_price" (VStr "43250").

Definition zero_rank : RawRecord := dict_set bitcoin "market_cap_rank" (VInt 0).

Definition wild_percentage : RawRecord :=
  dict_set bitcoin "price_change_percentage_24h" (VFloat (Finite (1500 # 1))).

Definition without_image : RawRecord := dict_del bitcoin "image".

(* ------------------------------------------------------------------ *)
(** ** Reading a canonical text back, and a parser that guesses per column *)









Definition negative_fraction_cap : RawRecord :=
  dict_set bitcoin "market_cap" (VFloat (Finite (-1 # 2))).

(** The rendering of one error, written out. *)
Definition rendered (e : ErrorDetails) : string :=
  "Field '" ++ err_loc e ++ "': " ++ py_str (err_input e) ++ " - "
  ++ error_msg (err_type e).

(* ------------------------------------------------------------------ *)
(** ** The model: what [model_validate] reports *)

Lemma validate_field_loc (record : RawRecord) (f : FieldInfo) (e : ErrorDetails) :
  validate_field record f = Err e -> err_loc e = field_name f.
Proof.
  unfold validate_field.
  destruct (dict_get record (field_name f)) as [v|].
  - destruct (core_validate (annotation f) v) as [m|t].
    + destruct (field_validator (field_name f)) as [check|]; [|discriminate].
      destruct (check m); [discriminate|].
      intros [= <-]. reflexivity.
    + intros [= <-]. reflexivity.
  - destruct (required f); [|discriminate].
    intros [= <-]. reflexivity.
Qed.

(** The offending value of a diagnostic is the value of the field, or the
    whole record when the key is absent. *)
Lemma validate_field_input (record : RawRecord) (f : FieldInfo) (e : ErrorDetails) :
  validate_field record f = Err e ->
  err_input e = dict_get_default record (field_name f) (VDict record).
Proof.
  unfold validate_field, dict_get_default.
  destruct (dict_get record (field_name f)) as [v|].
  - destruct (core_validate (annotation f) v) as [m|t].
    + destruct (field_validator (field_name f)) as [check|]; [|discriminate].
      destruct (check m); [discriminate|].
      intros [= <-]. reflexivity.
    + intros [= <-]. reflexivity.
  - destruct (required f); [|discriminate].
    intros [= <-]. reflexivity.
Qed.

Lemma errors_cite_failing_fields (record : RawRecord) (fs : list FieldInfo) :
  map err_loc (flat_map (field_errors record) fs)
  = map field_name (filter (field_fails record) fs).
Proof.
  induction fs as [|f fs IH]; [reflexivity|].
  simpl. rewrite map_app, IH.
  unfold field_errors, field_fails.
  destruct (validate_field record f) as [m|e] eqn:E; [reflexivity|].
  simpl. now rewrite (validate_field_loc _ _ _ E).
Qed.

Lemma cited_fields_failing (record : RawRecord) :
  cited_fields record
  = map field_name (filter (field_fails record) CryptoPrice_fields).
Proof. apply errors_cite_failing_fields. Qed.

Lemma validate_field_in_errors (record : RawRecord) (f : FieldInfo) (e : ErrorDetails) :
  In f CryptoPrice_fields ->
  validate_field record f = Err e ->
  In e (validation_errors record).
Proof.
  intros Hf He. unfold validation_errors.
  apply in_flat_map. exists f. split; [assumption|].
  unfold field_errors. rewrite He. now left.
Qed.

Lemma model_validate_errors (record : RawRecord) (errs : list ErrorDetails) :
  model_validate record = Err errs <->
  validation_errors record = errs /\ errs <> [].
Proof.
  unfold model_validate.
  destruct (validation_errors record) as [|e l]; split.
  - discriminate.
  - intros [<- H]. now contradiction H.
  - intros [= <-]. split; [reflexivity|discriminate].
  - intros [<- _]. reflexivity.
Qed.

Lemma is_valid_false (record : RawRecord) (e : ErrorDetails) :
  In e (validation_errors record) -> is_valid record = false.
Proof.
  unfold is_valid, model_validate.
  destruct (validation_errors record); [intros []|reflexivity].
Qed.

Lemma is_valid_true_fields (record : RawRecord) (f : FieldInfo) :
  is_valid record = true ->
  In f CryptoPrice_fields ->
  exists m, validate_field record f = Ok m.
Proof.
  intros Hv Hf.
  destruct (validate_field record f) as [m|e] eqn:E; [now exists m|].
  apply (validate_field_in_errors _ _ _ Hf) in E.
  apply is_valid_false in E. congruence.
Qed.

Lemma cited_field_iff (record : RawRecord) (name : string) :
  In name (cited_fields record) <->
  exists f, In f CryptoPrice_fields /\ field_name f = name
            /\ field_fails record f = true.
Proof.
  rewrite cited_fields_failing, in_map_iff.
  split.
  - intros (f & Hn & Hf). apply filter_In in Hf. now exists f.
  - intros (f & Hf & Hn & Hfail). exists f. split; [assumption|].
    apply filter_In. now split.
Qed.

(** The class body declares one attribute per name. *)
Lemma field_by_name (f g : FieldInfo) :
  In f CryptoPrice_fields -> In g CryptoPrice_fields ->
  field_name f = field_name g -> f = g.
Proof.
  intros Hf Hg.
  simpl in Hf.
  repeat (destruct Hf as [<-|Hf]; [
    simpl in Hg;
    repeat (destruct Hg as [<-|Hg]; [simpl; first [reflexivity | discriminate]|]);
    contradiction |]).
  contradiction.
Qed.

Lemma cited_field_of (record : RawRecord) (f : FieldInfo) :
  In f CryptoPrice_fields ->
  (In (field_name f) (cited_fields record) <-> field_fails record f = true).
Proof.
  intros Hf. rewrite cited_field_iff. split.
  - intros (g & Hg & Hn & Hfail).
    now rewrite (field_by_name f g Hf Hg (eq_sym Hn)).
  - intros Hfail. now exists f.
Qed.

(* ------------------------------------------------------------------ *)
(** ** The pattern of [validate_symbol] *)

Lemma class_star_dollar_complete (w : string) :
  all_lower_alnum w = true ->
  class_star_dollar w = true /\ class_star_dollar (w ++ String newline "")%string = true.
Proof.
  induction w as [|c w IH]; simpl.
  - intros _. split; reflexivity.
  - intros H. apply andb_true_iff in H as [Hc Hw].
    destruct (IH Hw) as [IH1 IH2].
    rewrite Hc, IH1, IH2. simpl. split; apply orb_true_r.
Qed.

Lemma class_star_dollar_sound (s : string) :
  class_star_dollar s = true ->
  exists w, all_lower_alnum w = true /\ (s = w \/ s = (w ++ String newline "")%string).
Proof.
  induction s as [|c s IH].
  - intros _. exists "". split; [reflexivity|now left].
  - cbn [class_star_dollar]. intros H. apply orb_true_iff in H as [H|H].
    + exists "". split; [reflexivity|right].
      simpl in H. destruct s; [|discriminate].
      apply Ascii.eqb_eq in H. now subst.
    + apply andb_true_iff in H as [Hc Hs].
      destruct (IH Hs) as (w & Hw & Hsw).
      exists (String c w). split.
      * simpl. now rewrite Hc, Hw.
      * destruct Hsw as [->| ->]; [now left|now right].
Qed.

(** [re_match_symbol] accepts exactly the non-empty strings over [[a-z0-9]],
    and those followed by one final newline. *)
Lemma re_match_symbol_spec (s : string) :
  re_match_symbol s = true <->
  exists w, w <> "" /\ all_lower_alnum w = true
            /\ (s = w \/ s = (w ++ String newline "")%string).
Proof.
  split.
  - destruct s as [|c s]; [discriminate|].
    simpl. intros H. apply andb_true_iff in H as [Hc Hs].
    destruct (class_star_dollar_sound s Hs) as (w & Hw & Hsw).
    exists (String c w). split; [discriminate|]. split.
    + simpl. now rewrite Hc, Hw.
    + destruct Hsw as [->| ->]; [now left|now right].
  - intros (w & Hne & Hw & Hs).
    destruct w as [|c w]; [now contradiction Hne|].
    simpl in Hw. apply andb_true_iff in Hw as [Hc Hw].
    destruct (class_star_dollar_complete w Hw) as [H1 H2].
    destruct Hs as [->| ->]; simpl; rewrite Hc; simpl; assumption.
Qed.

Lemma re_match_symbol_nonempty (s : string) :
  re_match_symbol s = true -> s <> "".
Proof. destruct s; [discriminate|discriminate]. Qed.

(* ------------------------------------------------------------------ *)
(** ** The loop of the validation asset *)

Lemma validation_loop_acc (raw_data : list RawRecord) :
  forall i valid invalid,
    validation_loop i raw_data valid invalid
    = (valid ++ filter is_valid raw_data, invalid ++ rejections i raw_data).
Proof.
  induction raw_data as [|record rest IH]; intros i valid invalid; simpl.
  - now rewrite !app_nil_r.
  - unfold is_valid. destruct (model_validate record) as [m|errs].
    + rewrite IH, <- app_assoc. reflexivity.
    + rewrite IH, <- app_assoc. reflexivity.
Qed.

Lemma validation_loop_result (raw_data : list RawRecord) :
  validation_loop 0 raw_data [] [] = (filter is_valid raw_data, rejections 0 raw_data).
Proof. apply validation_loop_acc. Qed.

Lemma rejections_enumerate (raw_data : list RawRecord) :
  forall i,
    map (fun e => (record_index e, record_data e)) (rejections i raw_data)
    = filter (fun p => negb (is_valid (snd p))) (enumerate_from i raw_data).
Proof.
  unfold enumerate_from.
  induction raw_data as [|record rest IH]; intros i; simpl; [reflexivity|].
  unfold is_valid at 1. destruct (model_validate record); simpl.
  - apply IH.
  - f_equal. apply IH.
Qed.

Lemma rejections_count (raw_data : list RawRecord) :
  forall i,
    (List.length (filter is_valid raw_data) + List.length (rejections i raw_data)
     = List.length raw_data)%nat.
Proof.
  induction raw_data as [|record rest IH]; intros i; simpl; [reflexivity|].
  unfold is_valid at 1. destruct (model_validate record); simpl.
  - now rewrite IH.
  - now rewrite Nat.add_succ_r, IH.
Qed.

Lemma rejections_entry (raw_data : list RawRecord) :
  forall i e,
    In e (rejections i raw_data) ->
    exists k,
      record_index e = (i + k)%nat
      /\ nth_error raw_data k = Some (record_data e)
      /\ errors e = map error_detail (validation_errors (record_data e))
      /\ validation_errors (record_data e) <> [].
Proof.
  induction raw_data as [|record rest IH]; intros i e; simpl; [intros []|].
  destruct (model_validate record) as [m|errs] eqn:E.
  - intros H. destruct (IH _ _ H) as (k & Hi & Hn & He).
    exists (S k). split; [lia|]. now split.
  - intros [<-|H].
    + apply model_validate_errors in E as [E Hne].
      exists 0%nat. simpl. rewrite E. repeat split; [lia|assumption].
    + destruct (IH _ _ H) as (k & Hi & Hn & He).
      exists (S k). split; [lia|]. now split.
Qed.

(* ------------------------------------------------------------------ *)
(** ** Properties of the validation asset *)

Ltac in_fields := simpl; repeat (first [left; reflexivity | right]).

(** C4.  The loop sends every record of the batch to exactly one of the two
    lists: [valid_records] is the sub-list of the accepted records,
    [invalid_records] holds one entry, with its index, for each of the others,
    in order, so the two counts add up to the size of the batch.  A rejected
    record never stops the loop; when the asset raises it is for the empty
    batch or from the sample log line, and otherwise it returns
    [valid_records]. *)
Theorem validation_partitions_batch (raw_data : list RawRecord) :
  let valid_records := fst (validation_loop 0 raw_data [] []) in
  let invalid_records := snd (validation_loop 0 raw_data [] []) in
  valid_records = filter is_valid raw_data
  /\ map (fun e => (record_index e, record_data e)) invalid_records
     = filter (fun p => negb (is_valid (snd p))) (enumerate_from 0 raw_data)
  /\ (List.length valid_records + List.length invalid_records
      = List.length raw_data)%nat
  /\ forall other,
       match validate_crypto_data_asset (Some raw_data) other with
       | Ok returned => returned = valid_records
       | Err e => (raw_data = [] /\ e = ZeroDivisionError)
                  \/ log_sample_valid valid_records = Err e
       end.
Proof.
  cbv zeta. unfold validate_crypto_data_asset. simpl bind.
  rewrite validation_loop_result. simpl fst. simpl snd.
  split; [reflexivity|].
  split; [apply rejections_enumerate|].
  split; [apply rejections_count|].
  intros _. destruct raw_data as [|record rest].
  - simpl. left. now split.
  - set (valid := filter is_valid (record :: rest)).
    unfold py_div. simpl List.length. simpl bind.
    destruct (log_sample_valid valid) as [[]|e]; simpl; [reflexivity|now right].
Qed.

Lemma validation_errors_input (record : RawRecord) :
  Forall (fun d => err_input d = dict_get_default record (err_loc d) (VDict record))
         (validation_errors record).
Proof.
  apply Forall_forall. intros d Hd.
  apply in_flat_map in Hd as (f & Hf & Hd).
  unfold field_errors in Hd.
  destruct (validate_field record f) as [m|e] eqn:E; [destruct Hd|].
  destruct Hd as [<-|[]].
  rewrite (validate_field_loc _ _ _ E). now apply validate_field_input.
Qed.

Lemma rejections_exact (raw_data : list RawRecord) :
  forall i,
    rejections i raw_data
    = map (fun p => mkInvalid (fst p) (snd p)
                      (map rendered (validation_errors (snd p))))
          (filter (fun p => negb (is_valid (snd p))) (enumerate_from i raw_data)).
Proof.
  unfold enumerate_from.
  induction raw_data as [|record rest IH]; intros i; simpl; [reflexivity|].
  unfold is_valid at 1. destruct (model_validate record) as [m|errs] eqn:E; simpl.
  - apply IH.
  - apply model_validate_errors in E as [<- _]. f_equal. apply IH.
Qed.

Lemma errors_of_field (record : RawRecord) (d : ErrorDetails) :
  In d (validation_errors record) ->
  exists f, In f CryptoPrice_fields /\ validate_field record f = Err d.
Proof.
  intros Hd. apply in_flat_map in Hd as (f & Hf & Hd).
  unfold field_errors in Hd.
  destruct (validate_field record f) as [m|e] eqn:E; [destruct Hd|].
  destruct Hd as [<-|[]]. now exists f.
Qed.

(** C6, as the code has it.  [invalid_records] is exactly the list, in batch
    order, of the records that the model rejects, each with its index and
    with one line ["Field '<field>': <value> - <reason>"] per error of the
    model.  The model reports one error for each field whose validation
    fails, in the order of the class body, every field being validated
    whatever the outcome of the others.  Within one field the type check
    comes first: when it fails, its error is the only one for that field and
    the field's validator is not consulted; when it passes and the validator
    raises, the value error is reported. *)
Theorem rejection_entries_per_field (raw_data : list RawRecord) :
  snd (validation_loop 0 raw_data [] [])
  = map (fun p =>
           mkInvalid (fst p) (snd p)
             (map (fun d => ("Field '" ++ err_loc d ++ "': " ++ py_str (err_input d)
                             ++ " - " ++ error_msg (err_type d))%string)
                  (validation_errors (snd p))))
        (filter (fun p => negb (is_valid (snd p))) (enumerate_from 0 raw_data))
  /\ forall record,
       cited_fields record
       = map field_name (filter (field_fails record) CryptoPrice_fields)
       /\ List.length (validation_errors record)
          = List.length (filter (field_fails record) CryptoPrice_fields)
       /\ Forall (fun d => err_input d
                           = dict_get_default record (err_loc d) (VDict record))
                 (validation_errors record)
       /\ (forall f v t,
             In f CryptoPrice_fields ->
             dict_get record (field_name f) = Some v ->
             core_validate (annotation f) v = Err t ->
             forall d, In d (validation_errors record) ->
                       err_loc d = field_name f ->
                       d = mkError t (field_name f) v)
       /\ (forall f v m check msg,
             In f CryptoPrice_fields ->
             dict_get record (field_name f) = Some v ->
             core_validate (annotation f) v = Ok m ->
             field_validator (field_name f) = Some check ->
             check m = Err msg ->
             In (mkError (value_error msg) (field_name f) v)
                (validation_errors record)).
Proof.
  split.
  - rewrite validation_loop_result. simpl snd. apply rejections_exact.
  - intros record.
    split; [apply cited_fields_failing|].
    split.
    { rewrite <- (length_map err_loc), <- (length_map field_name).
      f_equal. apply cited_fields_failing. }
    split; [apply validation_errors_input|].
    split.
    + intros f v t Hf Hget Hcore d Hd Hloc.
      destruct (errors_of_field record d Hd) as (g & Hg & Hv).
      assert (g = f) as ->.
      { apply field_by_name; try assumption.
        now rewrite <- (validate_field_loc _ _ _ Hv). }
      unfold validate_field in Hv. rewrite Hget, Hcore in Hv. congruence.
    + intros f v m check msg Hf Hget Hcore Hcheck Hmsg.
      apply validate_field_in_errors with f; [assumption|].
      unfold validate_field. now rewrite Hget, Hcore, Hcheck, Hmsg.
Qed.

Lemma str_field_value (record : RawRecord) (name : string) (m : Validated) :
  validate_field record (mkField name Str true) = Ok m ->
  exists s, dict_get record name = Some (VStr s).
Proof.
  unfold validate_field. simpl.
  destruct (dict_get record name) as [v|]; [|discriminate].
  destruct v; simpl; try discriminate. intros _. now exists s.
Qed.

(** C3, as the code has it.  An accepted record has strings under [id],
    [symbol] and [name]; the symbol matches the pattern, so it is not empty.
    Nothing is required of the length of [id] and [name]. *)
Theorem valid_record_identity_fields (record : RawRecord) :
  is_valid record = true ->
  exists id symbol name,
    dict_get record "id" = Some (VStr id)
    /\ dict_get record "symbol" = Some (VStr symbol)
    /\ dict_get record "name" = Some (VStr name)
    /\ re_match_symbol symbol = true
    /\ symbol <> "".
Proof.
  intros Hv.
  destruct (is_valid_true_fields record (mkField "id" Str true) Hv) as [mi Hi];
    [in_fields|].
  destruct (is_valid_true_fields record (mkField "symbol" Str true) Hv) as [ms Hs];
    [in_fields|].
  destruct (is_valid_true_fields record (mkField "name" Str true) Hv) as [mn Hn];
    [in_fields|].
  destruct (str_field_value _ _ _ Hi) as [id Hid].
  destruct (str_field_value _ _ _ Hs) as [symbol Hsymbol].
  destruct (str_field_value _ _ _ Hn) as [name Hname].
  exists id, symbol, name. repeat (split; [assumption|]).
  assert (re_match_symbol symbol = true) as Hm.
  { unfold validate_field in Hs. simpl in Hs. rewrite Hsymbol in Hs. simpl in Hs.
    destruct (re_match_symbol symbol); [reflexivity|discriminate]. }
  split; [assumption|now apply re_match_symbol_nonempty].
Qed.

Lemma Q_to_Z_negative (q : Q) : (Qnum q < 0)%Z -> (Q_to_Z q <? 0)%Z = true.
Proof.
  intros H. apply Z.ltb_lt. unfold Q_to_Z.
  apply Z.div_lt_upper_bound; lia.
Qed.

Lemma Qltb_zero (q : Q) : Qltb q (inject_Z 0) = (Qnum q <? 0)%Z.
Proof. unfold Qltb. simpl. now rewrite Z.mul_1_r. Qed.

Lemma float_fits_i64_zero (q : Q) : Qnum q = 0%Z -> float_fits_i64 q = true.
Proof.
  intros H. unfold float_fits_i64, Qltb, two_63.
  cbn [inject_Z Qnum Qden]. rewrite H.
  apply andb_true_iff. split; apply Z.ltb_lt; lia.
Qed.

Lemma double_overflow_large : (1000 < double_overflow)%Z.
Proof. apply Z.ltb_lt. vm_compute. reflexivity. Qed.

Lemma negative_value_fails (record : RawRecord) (f : FieldInfo) (v : Value) :
  field_validator (field_name f) = Some validate_positive_values ->
  annotation f = Int \/ annotation f = Float ->
  dict_get record (field_name f) = Some v ->
  is_negative_number v = true ->
  field_fails record f = true.
Proof.
  intros Hcheck Hann Hget Hneg.
  unfold field_fails, validate_field. rewrite Hget, Hcheck.
  destruct Hann as [-> | ->]; destruct v as [| |z|x| | |];
    simpl in Hneg; try discriminate; cbn [core_validate].
  - unfold validate_positive_values. now rewrite Hneg.
  - destruct x as [q| | |]; simpl in Hneg; try discriminate; [|reflexivity].
    destruct (Q_is_integer q); [|reflexivity].
    destruct (float_fits_i64 q); [|reflexivity].
    unfold validate_positive_values.
    rewrite Qltb_zero in Hneg. apply Z.ltb_lt in Hneg.
    now rewrite (Q_to_Z_negative q Hneg).
  - destruct (int_fits_double z); [|reflexivity].
    unfold validate_positive_values. cbn [float_lt]. rewrite Qltb_zero.
    cbn [inject_Z Qnum]. now rewrite Hneg.
  - unfold validate_positive_values. now rewrite Hneg.
Qed.

Lemma zero_value_passes (record : RawRecord) (f : FieldInfo) (v : Value) :
  field_validator (field_name f) = Some validate_positive_values ->
  annotation f = Int \/ annotation f = Float ->
  dict_get record (field_name f) = Some v ->
  is_zero_number v = true ->
  field_fails record f = false.
Proof.
  intros Hcheck Hann Hget Hzero.
  unfold field_fails, validate_field. rewrite Hget, Hcheck.
  destruct Hann as [-> | ->]; destruct v as [| |z|x| | |];
    simpl in Hzero; try discriminate; cbn [core_validate].
  - apply Z.eqb_eq in Hzero. now subst z.
  - destruct x as [q| | |]; try discriminate.
    apply Z.eqb_eq in Hzero. rewrite (float_fits_i64_zero q Hzero).
    unfold Q_is_integer, Q_to_Z. rewrite Hzero. reflexivity.
  - apply Z.eqb_eq in Hzero. subst z.
    assert (int_fits_double 0 = true) as -> by (vm_compute; reflexivity).
    reflexivity.
  - destruct x as [q| | |]; try discriminate.
    apply Z.eqb_eq in Hzero. unfold validate_positive_values. cbn [float_lt].
    rewrite Qltb_zero, Hzero. reflexivity.
Qed.

Lemma positive_value_field (name : string) :
  In name positive_value_fields ->
  exists f, In f CryptoPrice_fields /\ field_name f = name
            /\ field_validator name = Some validate_positive_values
            /\ (annotation f = Int \/ annotation f = Float).
Proof.
  intros [<-|[<-|[<-|[<-|[<-|[]]]]]].
  - exists (mkField "current_price" Float true). repeat split; [in_fields|now right].
  - exists (mkField "market_cap" Int true). repeat split; [in_fields|now left].
  - exists (mkField "total_volume" Int true). repeat split; [in_fields|now left].
  - exists (mkField "high_24h" Float true). repeat split; [in_fields|now right].
  - exists (mkField "low_24h" Float true). repeat split; [in_fields|now right].
Qed.

Lemma cited_is_invalid (record : RawRecord) (name : string) :
  In name (cited_fields record) -> is_valid record = false.
Proof.
  unfold cited_fields. intros H. apply in_map_iff in H as (e & _ & He).
  now apply is_valid_false with e.
Qed.

(** C7.  For each of [current_price], [market_cap], [total_volume],
    [high_24h] and [low_24h]: a record that holds a negative number there is
    rejected with a diagnostic citing that field, and a record that holds
    zero there gets no diagnostic for that field. *)
Theorem negative_values_rejected (record : RawRecord) (f : string) (v : Value) :
  In f positive_value_fields ->
  dict_get record f = Some v ->
  (is_negative_number v = true ->
     is_valid record = false /\ In f (cited_fields record))
  /\ (is_zero_number v = true -> ~ In f (cited_fields record)).
Proof.
  intros Hf Hget.
  destruct (positive_value_field f Hf) as (fi & Hin & Hname & Hcheck & Hann).
  subst f. split.
  - intros Hneg.
    assert (In (field_name fi) (cited_fields record)) as Hc.
    { apply cited_field_of; [assumption|].
      now apply negative_value_fails with v. }
    split; [now apply cited_is_invalid with (field_name fi)|assumption].
  - intros Hzero Hc. apply cited_field_of in Hc; [|assumption].
    rewrite (zero_value_passes record fi v) in Hc; [discriminate|assumption..].
Qed.

(** C8.  When the record holds a string under [symbol], the field is valid
    exactly when the string matches [^[a-z0-9]+$] as [re.match] reads it
    (a non-empty run of lowercase letters and digits, a final newline being
    allowed by [$]); otherwise the record is rejected with the value error
    of [validate_symbol].  ["btc"] matches, ["BTC"] and ["btc-1"] do not. *)
Theorem symbol_valid_iff_pattern (record : RawRecord) (s : string) :
  dict_get record "symbol" = Some (VStr s) ->
  (re_match_symbol s = true <-> ~ In "symbol" (cited_fields record))
  /\ (re_match_symbol s = false ->
        is_valid record = false
        /\ In (mkError (value_error "Symbol must be lowercase alphanumeric")
                       "symbol" (VStr s))
              (validation_errors record))
  /\ (re_match_symbol s = true <->
        exists w, w <> "" /\ all_lower_alnum w = true
                  /\ (s = w \/ s = (w ++ String newline "")%string))
  /\ re_match_symbol "btc" = true
  /\ re_match_symbol "BTC" = false
  /\ re_match_symbol "btc-1" = false.
Proof.
  intros Hget.
  assert (In (mkField "symbol" Str true) CryptoPrice_fields) as Hin by in_fields.
  assert (validate_field record (mkField "symbol" Str true)
          = if re_match_symbol s then Ok (MStr s)
            else Err (mkError (value_error "Symbol must be lowercase alphanumeric")
                              "symbol" (VStr s))) as Hv.
  { unfold validate_field. simpl. rewrite Hget. simpl.
    now destruct (re_match_symbol s). }
  pose proof (cited_field_of record _ Hin) as Hc. simpl in Hc.
  unfold field_fails in Hc. rewrite Hv in Hc.
  split; [|split; [|split; [apply re_match_symbol_spec|now repeat split]]].
  - destruct (re_match_symbol s); split; try easy.
    + intros _ H. apply Hc in H. discriminate.
    + intros H. contradiction H. now apply Hc.
  - intros Hm. rewrite Hm in Hv, Hc.
    assert (In "symbol" (cited_fields record)) as H by now apply Hc.
    split; [now apply cited_is_invalid with "symbol"|].
    now apply validate_field_in_errors with (mkField "symbol" Str true).
Qed.

(** C10.  [market_cap] and [total_volume] are annotated [int]: a record
    that holds there a finite float with a fractional part is rejected, with
    the [int_from_float] error on that field.  The same number under one of
    the [float] fields [current_price], [high_24h], [low_24h] raises no
    diagnostic for that field unless it is negative. *)
Theorem integer_fields_reject_fractions (record : RawRecord) (f : string) (q : Q) :
  In f integer_amount_fields ->
  dict_get record f = Some (VFloat (Finite q)) ->
  Q_is_integer q = false ->
  is_valid record = false
  /\ In (mkError int_from_float f (VFloat (Finite q))) (validation_errors record)
  /\ forall g, In g float_price_fields ->
               dict_get record g = Some (VFloat (Finite q)) ->
               Qltb q (inject_Z 0) = false ->
               ~ In g (cited_fields record).
Proof.
  intros Hf Hget Hfrac.
  assert (In (mkError int_from_float f (VFloat (Finite q)))
             (validation_errors record)) as He.
  { destruct Hf as [<-|[<-|[]]].
    - apply validate_field_in_errors with (mkField "market_cap" Int true);
        [in_fields|].
      unfold validate_field. simpl. rewrite Hget. simpl. now rewrite Hfrac.
    - apply validate_field_in_errors with (mkField "total_volume" Int true);
        [in_fields|].
      unfold validate_field. simpl. rewrite Hget. simpl. now rewrite Hfrac. }
  split; [now apply is_valid_false with (1 := He)|].
  split; [assumption|].
  intros g Hg Hgetg Hpos Hc.
  assert (exists fi, In fi CryptoPrice_fields /\ field_name fi = g
                     /\ annotation fi = Float
                     /\ field_validator g = Some validate_positive_values)
    as (fi & Hin & Hname & Hann & Hcheck).
  { destruct Hg as [<-|[<-|[<-|[]]]].
    - exists (mkField "current_price" Float true). repeat split. in_fields.
    - exists (mkField "high_24h" Float true). repeat split. in_fields.
    - exists (mkField "low_24h" Float true). repeat split. in_fields. }
  subst g. apply cited_field_of in Hc; [|assumption].
  unfold field_fails, validate_field in Hc.
  rewrite Hgetg, Hann, Hcheck in Hc. simpl in Hc.
  unfold validate_positive_values in Hc. simpl in Hc. rewrite Hpos in Hc.
  discriminate.
Qed.

(* ------------------------------------------------------------------ *)
(** ** The frame: columns, cells and the two cleaning passes *)

Lemma set_nth_length {A : Type} (j : nat) (x : A) (l : list A) :
  List.length (set_nth j x l) = List.length l.
Proof.
  revert j. induction l as [|h t IH]; intros [|j]; simpl; auto.
Qed.

Lemma cell_set_nth_same (j : nat) (x : Value) (r : list Value) :
  (j < List.length r)%nat -> cell (set_nth j x r) j = x.
Proof.
  unfold cell. revert j. induction r as [|h t IH]; intros [|j]; simpl; intros H;
    try lia; [reflexivity|]. apply IH. lia.
Qed.

Lemma cell_set_nth_other (j k : nat) (x : Value) (r : list Value) :
  j <> k -> cell (set_nth j x r) k = cell r k.
Proof.
  unfold cell. revert j k. induction r as [|h t IH]; intros [|j] [|k] H; simpl;
    try reflexivity; try contradiction.
  apply IH. congruence.
Qed.

Lemma map_column_width (j : nat) f (df : DataFrame) (n : nat) :
  frame_width df n -> frame_width (map_column j f df) n.
Proof.
  intros [Hc Hr]. split; [assumption|]. simpl.
  apply Forall_map. apply Forall_impl with (2 := Hr).
  intros r Hlen. now rewrite set_nth_length.
Qed.

Lemma map_column_same (j : nat) f (df : DataFrame) (n : nat) :
  frame_width df n -> (j < n)%nat ->
  column_values (map_column j f df) j
  = map (f (column_values df j)) (column_values df j).
Proof.
  intros [_ Hr] Hj. unfold column_values at 1 3. simpl.
  rewrite !map_map. apply map_ext_in. intros r Hin.
  rewrite Forall_forall in Hr. apply cell_set_nth_same.
  rewrite (Hr r Hin). assumption.
Qed.

Lemma map_column_other (j k : nat) f (df : DataFrame) :
  j <> k -> column_values (map_column j f df) k = column_values df k.
Proof.
  intros H. unfold column_values. simpl. rewrite map_map.
  apply map_ext. intros r. now apply cell_set_nth_other.
Qed.

Lemma index_of_nth (c : string) (cols : list string) (j : nat) :
  index_of c cols = Some j ->
  (j < List.length cols)%nat /\ nth_error cols j = Some c.
Proof.
  revert j. induction cols as [|c' rest IH]; intros j; simpl; [discriminate|].
  destruct (String.eqb c' c) eqn:E.
  - intros [= <-]. apply String.eqb_eq in E. subst. split; [lia|reflexivity].
  - destruct (index_of c rest) as [k|]; [|discriminate].
    intros [= <-]. destruct (IH k eq_refl). split; [lia|assumption].
Qed.

Lemma index_of_inj (c c' : string) (cols : list string) (j : nat) :
  index_of c cols = Some j -> index_of c' cols = Some j -> c = c'.
Proof.
  intros H H'. apply index_of_nth in H as [_ H]. apply index_of_nth in H' as [_ H'].
  congruence.
Qed.

(** The first pass: a column is filled when pandas holds it as [object]. *)
Lemma fillna_fold_column (js : list nat) :
  forall (df : DataFrame) (n j : nat),
    frame_width df n -> (forall k, In k js -> (k < n)%nat) -> NoDup js ->
    frame_width
      (fold_left (fun d k => map_column k (fun _ v => fillna_empty v) d) js df) n
    /\ columns (fold_left (fun d k => map_column k (fun _ v => fillna_empty v) d) js df)
       = columns df
    /\ column_values
         (fold_left (fun d k => map_column k (fun _ v => fillna_empty v) d) js df) j
       = if existsb (Nat.eqb j) js
         then map fillna_empty (column_values df j)
         else column_values df j.
Proof.
  induction js as [|k ks IH]; intros df n j Hw Hlt Hnd; simpl.
  - split; [assumption|split; reflexivity].
  - inversion Hnd as [|? ? Hk Hks]; subst.
    destruct (IH (map_column k (fun _ v => fillna_empty v) df) n j)
      as (Hw' & Hc' & Hv');
      [now apply map_column_width|intros; apply Hlt; now right|assumption|].
    split; [assumption|]. split; [assumption|].
    rewrite Hv'. destruct (Nat.eqb j k) eqn:E; simpl.
    + apply Nat.eqb_eq in E. subst j.
      assert (existsb (Nat.eqb k) ks = false) as ->.
      { destruct (existsb (Nat.eqb k) ks) eqn:X; [|reflexivity].
        apply existsb_exists in X as (x & Hx & Hxk).
        apply Nat.eqb_eq in Hxk. now subst x. }
      apply map_column_same with n; [assumption|apply Hlt; now left].
    + apply Nat.eqb_neq in E.
      rewrite map_column_other by congruence. reflexivity.
Qed.

Lemma pd_DataFrame_width (records : list RawRecord) :
  frame_width (pd_DataFrame records) (List.length (frame_columns records)).
Proof.
  split; [reflexivity|]. simpl. apply Forall_map. apply Forall_forall.
  intros r _. unfold frame_row. now rewrite length_map.
Qed.

Lemma pd_DataFrame_column (records : list RawRecord) (col : string) (j : nat) :
  index_of col (frame_columns records) = Some j ->
  column_values (pd_DataFrame records) j
  = map (fun record => dict_get_default record col (VFloat NaN)) records.
Proof.
  intros H. apply index_of_nth in H as [Hj Hn].
  unfold column_values. simpl. rewrite map_map. apply map_ext. intros r.
  unfold cell, frame_row.
  rewrite (nth_indep _ _ (dict_get_default r "" (VFloat NaN)))
    by now rewrite length_map.
  rewrite (map_nth (fun c => dict_get_default r c (VFloat NaN))).
  now rewrite (nth_error_nth _ _ _ Hn).
Qed.

Lemma fillna_object_columns_spec (df : DataFrame) (n j : nat) :
  frame_width df n ->
  frame_width (fillna_object_columns df) n
  /\ columns (fillna_object_columns df) = columns df
  /\ exists h, (h = fillna_empty \/ h = (fun v => v))
               /\ column_values (fillna_object_columns df) j
                  = map h (column_values df j).
Proof.
  intros Hw. unfold fillna_object_columns.
  destruct (fillna_fold_column (object_columns df) df n j Hw) as (H1 & H2 & H3).
  - intros k Hk. apply filter_In in Hk as [Hk _]. apply in_seq in Hk.
    destruct Hw as [<- _]. lia.
  - apply NoDup_filter, seq_NoDup.
  - split; [assumption|]. split; [assumption|].
    rewrite H3. destruct (existsb (Nat.eqb j) (object_columns df)).
    + exists fillna_empty. split; [now left|reflexivity].
    + exists (fun v => v). split; [now right|]. now rewrite map_id.
Qed.

Lemma convert_datetime_column_width (df : DataFrame) (n : nat) (c : string) :
  frame_width df n ->
  frame_width (convert_datetime_column df c) n
  /\ columns (convert_datetime_column df c) = columns df.
Proof.
  intros Hw. unfold convert_datetime_column.
  destruct (index_of c (columns df)); [|now split].
  split; [now apply map_column_width|reflexivity].
Qed.

Lemma convert_datetime_column_other (df : DataFrame) (c col : string) (j : nat) :
  c <> col ->
  index_of col (columns df) = Some j ->
  column_values (convert_datetime_column df c) j = column_values df j.
Proof.
  intros Hne Hj. unfold convert_datetime_column.
  destruct (index_of c (columns df)) as [k|] eqn:Hk; [|reflexivity].
  apply map_column_other. intros ->.
  apply Hne. now apply index_of_inj with (columns df) j.
Qed.

Lemma convert_fold_other (cols : list string) :
  forall (df : DataFrame) (n : nat) (col : string) (j : nat),
    frame_width df n ->
    ~ In col cols ->
    index_of col (columns df) = Some j ->
    column_values (fold_left convert_datetime_column cols df) j
    = column_values df j.
Proof.
  induction cols as [|c cs IH]; intros df n col j Hw Hnin Hj; simpl; [reflexivity|].
  destruct (convert_datetime_column_width df n c Hw) as [Hw' Hc'].
  rewrite (IH _ n col j Hw').
  - apply convert_datetime_column_other with col; [|assumption].
    intros ->. apply Hnin. now left.
  - intros H. apply Hnin. now right.
  - now rewrite Hc'.
Qed.


Lemma convert_datetime_columns_width (df : DataFrame) (n : nat) :
  frame_width df n ->
  frame_width (convert_datetime_columns df) n
  /\ columns (convert_datetime_columns df) = columns df.
Proof.
  unfold convert_datetime_columns. generalize datetime_cols as cols.
  intros cols. revert df. induction cols as [|c cs IH]; intros df Hw; simpl;
    [now split|].
  destruct (convert_datetime_column_width df n c Hw) as [Hw' Hc'].
  destruct (IH _ Hw') as [H1 H2]. split; [assumption|congruence].
Qed.

Lemma cleaned_frame_width (records : list RawRecord) :
  frame_width (cleaned_frame records) (List.length (frame_columns records))
  /\ columns (cleaned_frame records) = frame_columns records.
Proof.
  unfold cleaned_frame.
  pose proof (pd_DataFrame_width records) as H0.
  destruct (fillna_object_columns_spec _ _ 0%nat H0) as (H1 & C1 & _).
  destruct (convert_datetime_columns_width _ _ H1) as [H2 C2].
  split; [assumption|]. now rewrite C2, C1.
Qed.

Lemma rows_map_column (j : nat) f (df : DataFrame) :
  List.length (rows (map_column j f df)) = List.length (rows df).
Proof. simpl. apply length_map. Qed.

Lemma fold_left_rows {B : Type} (step : DataFrame -> B -> DataFrame) (l : list B) :
  (forall d b, List.length (rows (step d b)) = List.length (rows d)) ->
  forall df, List.length (rows (fold_left step l df)) = List.length (rows df).
Proof.
  intros Hstep. induction l as [|b l IH]; intros df; simpl; [reflexivity|].
  now rewrite IH, Hstep.
Qed.

Lemma cleaned_frame_rows (records : list RawRecord) :
  List.length (rows (cleaned_frame records)) = List.length records.
Proof.
  unfold cleaned_frame, convert_datetime_columns, fillna_object_columns.
  rewrite !fold_left_rows.
  - simpl. apply length_map.
  - intros d b. apply rows_map_column.
  - intros d c. unfold convert_datetime_column.
    destruct (index_of c (columns d)); [apply rows_map_column|reflexivity].
Qed.





(* ------------------------------------------------------------------ *)
(** ** Properties of the storage asset *)


(** A column that is not a date column reaches the INSERT as the records
    hold it, nulls filled or not: nothing renders a nested value. *)
Lemma cleaned_frame_other_column (records : list RawRecord) (col : string) (j : nat) :
  ~ In col datetime_cols ->
  index_of col (frame_columns records) = Some j ->
  exists h, (h = fillna_empty \/ h = (fun v => v))
            /\ column_values (cleaned_frame records) j
               = map (fun record => h (dict_get_default record col (VFloat NaN)))
                     records.
Proof.
  intros Hcol Hj.
  pose proof (pd_DataFrame_width records) as H0.
  destruct (fillna_object_columns_spec _ _ j H0) as (H1 & C1 & h & Hh & Hv).
  exists h. split; [assumption|].
  unfold cleaned_frame, convert_datetime_columns.
  rewrite (convert_fold_other datetime_cols _ _ col j H1 Hcol)
    by (rewrite C1; exact Hj).
  now rewrite Hv, (pd_DataFrame_column records col j Hj), map_map.
Qed.

Lemma cast_rows_length (types : list ColType) (rs : list (list Value)) :
  forall out, cast_rows types rs = Some out -> List.length out = List.length rs.
Proof.
  induction rs as [|r rest IH]; simpl; intros out.
  - now intros [= <-].
  - destruct (cast_row types r); [|discriminate].
    destruct (cast_rows types rest) as [xs|]; [|discriminate].
    intros [= <-]. simpl. now rewrite (IH xs).
Qed.

Lemma insert_select_ok (t t' : Table) (df : DataFrame) :
  insert_select t df = Ok t' ->
  tbl_schema t' = tbl_schema t
  /\ List.length (columns df) = List.length (tbl_schema t)
  /\ exists new_rows, tbl_rows t' = tbl_rows t ++ new_rows
                      /\ List.length new_rows = List.length (rows df).
Proof.
  unfold insert_select.
  destruct (Nat.eqb_spec (List.length (columns df)) (List.length (tbl_schema t)))
    as [Hlen|]; [|discriminate].
  destruct (cast_rows (map snd (tbl_schema t)) (rows df)) as [new_rows|] eqn:E;
    [|discriminate].
  intros [= <-]. simpl. split; [reflexivity|]. split; [assumption|].
  exists new_rows. split; [reflexivity|now apply cast_rows_length with (1 := E)].
Qed.

(** What any call of the asset does to the table. *)
Lemma store_step (records : list RawRecord) (db db' : Db) (r : result Exception string) :
  store_validated_crypto_data records db = (db', r) ->
  (forall t, table db = Some t ->
     exists t' new_rows, table db' = Some t' /\ tbl_schema t' = tbl_schema t
                         /\ tbl_rows t' = tbl_rows t ++ new_rows)
  /\ (forall t', table db = None -> table db' = Some t' ->
        tbl_schema t' = create_table_sql)
  /\ (records <> [] -> exists t', table db' = Some t')
  /\ (forall p, r = Ok p ->
        p = db_path
        /\ total_rows db' = (total_rows db + List.length records)%nat).
Proof.
  unfold store_validated_crypto_data.
  destruct records as [|record rest].
  - intros [= <- <-]. simpl. repeat split.
    + intros t Ht. exists t, []. now rewrite app_nil_r.
    + intros t' Hn Ht'. congruence.
    + intros H. now contradiction H.
    + congruence.
    + unfold total_rows. simpl. lia.
  - set (records := record :: rest). simpl table.
    set (t0 := create_table_if_not_exists (table db)).
    assert (forall t, table db = Some t -> t0 = t) as Hsome.
    { intros t Ht. unfold t0. now rewrite Ht. }
    assert (table db = None -> t0 = mkTable create_table_sql []) as Hnone.
    { intros Ht. unfold t0. now rewrite Ht. }
    assert (total_rows db = List.length (tbl_rows t0)) as Hcount.
    { unfold total_rows, t0. now destruct (table db). }
    destruct (insert_select t0 (cleaned_frame records)) as [t1|e] eqn:E.
    + apply insert_select_ok in E as (Hs & _ & new_rows & Hr & Hlen).
      rewrite cleaned_frame_rows in Hlen.
      assert (forall x, (mkDb true (Some t1), x) = (db', r) ->
                        table db' = Some t1) as Hdb by (now intros x [= <- _]).
      intros Hres.
      assert (table db' = Some t1) as Ht1
        by (destruct (log_sample_rows t1); now apply Hdb in Hres).
      repeat split.
      * intros t Ht. exists t1, new_rows. rewrite <- (Hsome t Ht). now repeat split.
      * intros t' Hn Ht'. rewrite Ht1 in Ht'. injection Ht' as <-.
        now rewrite Hs, (Hnone Hn).
      * intros _. now exists t1.
      * destruct (log_sample_rows t1); congruence.
      * unfold total_rows at 1. rewrite Ht1. unfold count_rows.
        rewrite Hr, length_app, Hcount. lia.
    + intros [= <- <-]. simpl. repeat split.
      * intros t Ht. exists t0, []. rewrite (Hsome t Ht), app_nil_r. now repeat split.
      * intros t' Hn [= <-]. now rewrite (Hnone Hn).
      * intros _. now exists t0.
      * discriminate.
      * discriminate.
Qed.

(** When the asset returns the path for a batch that is not empty: the
    INSERT went through (as many columns as the table has, every cell cast)
    and so did the sample log. *)
Lemma store_returns_path (records : list RawRecord) (db : Db) (t' : Table) :
  records <> [] ->
  insert_select (create_table_if_not_exists (table db)) (cleaned_frame records)
  = Ok t' ->
  log_sample_rows t' = Ok tt ->
  store_validated_crypto_data records db = (mkDb true (Some t'), Ok db_path).
Proof.
  intros Hne Hins Hlog. destruct records as [|record rest]; [now contradiction Hne|].
  unfold store_validated_crypto_data. simpl table. now rewrite Hins, Hlog.
Qed.

(** C1.  On the empty batch the loop leaves both lists empty, and the asset
    then raises [ZeroDivisionError] while it formats the success rate: the
    validation asset does not return.  The storage asset, given the empty
    list, returns the path and leaves the table as it was. *)
Theorem empty_batch_divides_by_zero (other : option (list RawRecord)) (db : Db) :
  validation_loop 0 [] [] [] = ([], [])
  /\ validate_crypto_data_asset (Some []) other = Err ZeroDivisionError
  /\ store_validated_crypto_data [] db = (mkdir db, Ok db_path)
  /\ table (mkdir db) = table db.
Proof. repeat split. Qed.

(** The INSERT is refused whenever the keys met in the batch are not as many
    as the columns of the table. *)
Lemma store_binder_exception (records : list RawRecord) (db : Db) :
  records <> [] ->
  List.length (frame_columns records)
  <> List.length (tbl_schema (create_table_if_not_exists (table db))) ->
  store_validated_crypto_data records db
  = (mkDb true (Some (create_table_if_not_exists (table db))), Err BinderException).
Proof.
  intros Hne Hlen. destruct records as [|record rest]; [now contradiction Hne|].
  unfold store_validated_crypto_data. simpl table.
  unfold insert_select.
  rewrite (proj2 (cleaned_frame_width (record :: rest))).
  destruct (Nat.eqb_spec (List.length (frame_columns (record :: rest)))
              (List.length (tbl_schema (create_table_if_not_exists (table db)))));
    [contradiction|reflexivity].
Qed.

(** C2.  The frame takes its columns from the keys of the records; nothing
    projects it onto the 27 columns of the table.  A valid record without
    [roi] gives 26 columns and a valid record with one more key gives 28: in
    both cases the table is created and the INSERT is refused.  With all 27
    keys in the order of the upstream API the labels still differ from the
    table's, and a nested [roi] reaches the INSERT as the dict it is. *)
Theorem store_frame_follows_record_keys :
  (is_valid bitcoin_without_roi = true
   /\ List.length (columns (cleaned_frame [bitcoin_without_roi])) = 26%nat
   /\ ~ In "roi" (columns (cleaned_frame [bitcoin_without_roi]))
   /\ store_validated_crypto_data [bitcoin_without_roi] fresh_location
      = (mkDb true (Some (mkTable create_table_sql [])), Err BinderException))
  /\ (is_valid bitcoin_with_extra = true
      /\ In "sparkline" (columns (cleaned_frame [bitcoin_with_extra]))
      /\ store_validated_crypto_data [bitcoin_with_extra] fresh_location
         = (mkDb true (Some (mkTable create_table_sql [])), Err BinderException))
  /\ (is_valid ethereum = true
      /\ List.length (columns (cleaned_frame [ethereum])) = 27%nat
      /\ columns (cleaned_frame [ethereum]) <> map fst create_table_sql
      /\ column_values (cleaned_frame [ethereum]) 24
         = [VDict [("times", VFloat (Finite (55 # 1))); ("currency", VStr "btc")]]).
Proof.
  split; [|split].
  - split; [reflexivity|].
    rewrite (proj2 (cleaned_frame_width [bitcoin_without_roi])).
    split; [reflexivity|]. split.
    + vm_compute. intuition discriminate.
    + apply (store_binder_exception [bitcoin_without_roi] fresh_location);
        [discriminate|vm_compute; discriminate].
  - split; [reflexivity|].
    rewrite (proj2 (cleaned_frame_width [bitcoin_with_extra])).
    split; [vm_compute; tauto|].
    apply (store_binder_exception [bitcoin_with_extra] fresh_location);
      [discriminate|vm_compute; discriminate].
  - split; [reflexivity|].
    rewrite (proj2 (cleaned_frame_width [ethereum])).
    split; [reflexivity|]. split; [vm_compute; discriminate|].
    destruct (cleaned_frame_other_column [ethereum] "roi" 24) as (h & Hh & ->).
    + vm_compute. intuition discriminate.
    + reflexivity.
    + destruct Hh as [-> | ->]; reflexivity.
Qed.

(** X16.  Two calls in succession on a fresh location, both returning the
    path: the table then holds as many rows as the two batches have records;
    the table left by the first call has the columns and types of
    [create_table_sql], and the second call keeps them and the rows already
    there.  More generally no call, whatever its outcome, changes the schema
    of a table that exists. *)
Theorem store_twice_appends
    (batch1 batch2 : list RawRecord) (db1 db2 : Db) (p1 p2 : string) :
  store_validated_crypto_data batch1 fresh_location = (db1, Ok p1) ->
  store_validated_crypto_data batch2 db1 = (db2, Ok p2) ->
  total_rows db2 = (List.length batch1 + List.length batch2)%nat
  /\ (forall t1, table db1 = Some t1 ->
        tbl_schema t1 = create_table_sql
        /\ exists t2 new_rows,
             table db2 = Some t2 /\ tbl_schema t2 = tbl_schema t1
             /\ tbl_rows t2 = tbl_rows t1 ++ new_rows)
  /\ (forall t2, table db2 = Some t2 -> tbl_schema t2 = create_table_sql)
  /\ (batch1 ++ batch2 <> [] -> exists t2, table db2 = Some t2)
  /\ (forall records db t,
        table db = Some t ->
        exists t', table (fst (store_validated_crypto_data records db)) = Some t'
                   /\ tbl_schema t' = tbl_schema t).
Proof.
  intros H1 H2.
  destruct (store_step _ _ _ _ H1) as (_ & New1 & Ex1 & Ok1).
  destruct (store_step _ _ _ _ H2) as (Keep2 & New2 & Ex2 & Ok2).
  destruct (Ok1 p1 eq_refl) as [_ Hn1]. destruct (Ok2 p2 eq_refl) as [_ Hn2].
  assert (forall t1, table db1 = Some t1 -> tbl_schema t1 = create_table_sql)
    as Hs1 by (intros t1; now apply New1).
  split; [rewrite Hn2, Hn1; reflexivity|]. split; [|split; [|split]].
  - intros t1 Ht1. split; [now apply Hs1|].
    destruct (Keep2 t1 Ht1) as (t2 & new_rows & ? & ? & ?).
    now exists t2, new_rows.
  - intros t2 Ht2. destruct (table db1) as [t1|] eqn:Ht1.
    + destruct (Keep2 t1 eq_refl) as (t2' & new_rows & Ht2' & Hs & _).
      rewrite Ht2 in Ht2'. injection Ht2' as <-. rewrite Hs. now apply Hs1.
    + now apply New2.
  - intros Hne. destruct batch2 as [|r2 rest2].
    + rewrite app_nil_r in Hne. destruct (Ex1 Hne) as [t1 Ht1].
      destruct (Keep2 t1 Ht1) as (t2 & _ & Ht2 & _). now exists t2.
    + apply Ex2. discriminate.
  - intros records db t Ht.
    destruct (store_validated_crypto_data records db) as [db' r] eqn:E.
    destruct (store_step _ _ _ _ E) as (Keep & _).
    destruct (Keep t Ht) as (t' & _ & Ht' & Hs & _). now exists t'.
Qed.

(** C5.  Two calls in succession on a fresh location with the batch of one
    valid record that has no [roi]: the first call creates the table with the
    columns and types of [create_table_sql] and its INSERT is refused, the
    second finds the table and is refused as well, so the table ends with no
    row where the two batches hold two valid records.  The schema is the
    same after both calls, and no call changes the schema of a table that
    exists. *)
Theorem store_twice_without_roi_stores_nothing :
  let db1 :=
    fst (store_validated_crypto_data [bitcoin_without_roi] fresh_location) in
  let db2 := fst (store_validated_crypto_data [bitcoin_without_roi] db1) in
  is_valid bitcoin_without_roi = true
  /\ snd (store_validated_crypto_data [bitcoin_without_roi] fresh_location)
     = Err BinderException
  /\ snd (store_validated_crypto_data [bitcoin_without_roi] db1)
     = Err BinderException
  /\ table db1 = Some (mkTable create_table_sql [])
  /\ table db2 = table db1
  /\ total_rows db2 = 0%nat
  /\ (List.length [bitcoin_without_roi] + List.length [bitcoin_without_roi]
      = 2)%nat
  /\ (forall records db t,
        table db = Some t ->
        exists t', table (fst (store_validated_crypto_data records db)) = Some t'
                   /\ tbl_schema t' = tbl_schema t).
Proof.
  cbv zeta.
  assert (store_validated_crypto_data [bitcoin_without_roi] fresh_location
          = (mkDb true (Some (mkTable create_table_sql [])), Err BinderException))
    as H1.
  { apply (store_binder_exception [bitcoin_without_roi] fresh_location);
      [discriminate|vm_compute; discriminate]. }
  assert (store_validated_crypto_data [bitcoin_without_roi]
            (mkDb true (Some (mkTable create_table_sql [])))
          = (mkDb true (Some (mkTable create_table_sql [])), Err BinderException))
    as H2.
  { apply (store_binder_exception [bitcoin_without_roi]
             (mkDb true (Some (mkTable create_table_sql []))));
      [discriminate|vm_compute; discriminate]. }
  rewrite H1. cbn [fst snd]. rewrite H2. cbn [fst snd table].
  split; [vm_compute; reflexivity|].
  do 6 (split; [reflexivity|]).
  clear H1 H2.
  intros records db t Ht.
  destruct (store_validated_crypto_data records db) as [db' r] eqn:E.
  destruct (store_step _ _ _ _ E) as (Keep & _).
  destruct (Keep t Ht) as (t' & _ & Ht' & Hs & _).
  exists t'. split; assumption.
Qed.

(* ------------------------------------------------------------------ *)
(** ** Further properties of the model *)

Lemma field_fails_ext (r1 r2 : RawRecord) (f : FieldInfo) :
  dict_get r1 (field_name f) = dict_get r2 (field_name f) ->
  field_fails r1 f = field_fails r2 f.
Proof.
  intros H. unfold field_fails, validate_field. rewrite H.
  destruct (dict_get r2 (field_name f)) as [v|].
  - destruct (core_validate (annotation f) v) as [m|t]; [|reflexivity].
    destruct (field_validator (field_name f)) as [check|]; [|reflexivity].
    now destruct (check m).
  - now destruct (required f).
Qed.

Lemma is_valid_cited (record : RawRecord) :
  is_valid record = true <-> cited_fields record = [].
Proof.
  unfold is_valid, model_validate, cited_fields.
  destruct (validation_errors record); simpl; split; try reflexivity; discriminate.
Qed.

Lemma is_valid_of_cited (r1 r2 : RawRecord) :
  cited_fields r1 = cited_fields r2 -> is_valid r1 = is_valid r2.
Proof.
  intros H.
  destruct (is_valid r1) eqn:E1, (is_valid r2) eqn:E2; try reflexivity.
  - apply is_valid_cited in E1. rewrite H in E1. apply is_valid_cited in E1. congruence.
  - apply is_valid_cited in E2. rewrite <- H in E2. apply is_valid_cited in E2.
    congruence.
Qed.

(** X1.  Validation reads a record only through the 27 declared keys: two
    records that agree on them get diagnostics for the same fields and the
    same verdict.  Keys that are not fields are ignored. *)
Theorem validation_reads_declared_fields (r1 r2 : RawRecord) :
  (forall f, In f CryptoPrice_fields ->
             dict_get r1 (field_name f) = dict_get r2 (field_name f)) ->
  cited_fields r1 = cited_fields r2 /\ is_valid r1 = is_valid r2.
Proof.
  intros H.
  assert (cited_fields r1 = cited_fields r2) as Hc.
  { rewrite !cited_fields_failing. f_equal.
    apply filter_ext_in. intros f Hf. apply field_fails_ext. now apply H. }
  split; [assumption|now apply is_valid_of_cited].
Qed.

(** X2.  A declared key that the record does not have is cited exactly when
    the field is required, with the error [missing] whose input is the whole
    record; an optional field that is absent or [None] is not cited. *)
Theorem absent_key_cited_iff_required (record : RawRecord) (f : FieldInfo) :
  In f CryptoPrice_fields ->
  (dict_get record (field_name f) = None ->
     (In (field_name f) (cited_fields record) <-> required f = true)
     /\ (required f = true ->
           In (mkError missing (field_name f) (VDict record))
              (validation_errors record)
           /\ is_valid record = false))
  /\ (required f = false ->
        dict_get record (field_name f) = Some VNone ->
        ~ In (field_name f) (cited_fields record)).
Proof.
  intros Hf. split.
  - intros Hget.
    assert (validate_field record f
            = if required f
              then Err (mkError missing (field_name f) (VDict record))
              else Ok MNone) as Hv.
    { unfold validate_field. now rewrite Hget. }
    split.
    + rewrite (cited_field_of record f Hf). unfold field_fails. rewrite Hv.
      destruct (required f); split; congruence.
    + intros Hreq. rewrite Hreq in Hv.
      pose proof (validate_field_in_errors record f _ Hf Hv) as He.
      split; [assumption|now apply is_valid_false with (1 := He)].
  - intros Hreq Hget. rewrite (cited_field_of record f Hf).
    unfold field_fails, validate_field. rewrite Hget.
    simpl in Hf.
    repeat (destruct Hf as [<-|Hf]; [simpl in *; first [discriminate|congruence]|]).
    contradiction.
Qed.

(** X3.  [validate_rank]: an integer rank is cited exactly when it is zero
    or negative, and the record is then rejected. *)
Theorem rank_must_be_positive (record : RawRecord) (z : Z) :
  dict_get record "market_cap_rank" = Some (VInt z) ->
  (In "market_cap_rank" (cited_fields record) <-> (z <= 0)%Z)
  /\ ((z <= 0)%Z -> is_valid record = false).
Proof.
  intros Hget.
  assert (In (mkField "market_cap_rank" Int true) CryptoPrice_fields) as Hin
    by in_fields.
  pose proof (cited_field_of record _ Hin) as Hc. simpl in Hc.
  unfold field_fails, validate_field in Hc. simpl in Hc. rewrite Hget in Hc.
  simpl in Hc. unfold validate_rank in Hc.
  assert (In "market_cap_rank" (cited_fields record) <-> (z <= 0)%Z) as Hiff.
  { rewrite Hc. destruct (Z.leb_spec z 0); split; intros; try congruence; lia. }
  split; [assumption|].
  intros Hz. apply cited_is_invalid with "market_cap_rank". now apply Hiff.
Qed.

Lemma percentage_out_of_range (q : Q) :
  Qltb (inject_Z 1000) (Qabs q) = true <-> (q < -1000 # 1 \/ 1000 # 1 < q)%Q.
Proof.
  destruct q as [n d]. unfold Qltb, Qlt. cbn [Qabs Qnum Qden inject_Z].
  rewrite Z.ltb_lt. lia.
Qed.

(** X4.  [validate_percentage]: under either percentage field a number is
    cited exactly when it lies outside [-1000, 1000]; the bounds themselves
    pass. *)
Theorem percentage_within_thousand (record : RawRecord) (f : string) :
  In f percentage_fields ->
  (forall z, dict_get record f = Some (VInt z) ->
     (In f (cited_fields record) <-> (z < -1000 \/ 1000 < z)%Z))
  /\ (forall q, dict_get record f = Some (VFloat (Finite q)) ->
        (In f (cited_fields record) <-> (q < -1000 # 1 \/ 1000 # 1 < q)%Q)).
Proof.
  intros Hf.
  assert (In (mkField f Float true) CryptoPrice_fields
          /\ field_validator f = Some validate_percentage) as [Hin Hcheck].
  { destruct Hf as [<-|[<-|[]]]; (split; [in_fields|reflexivity]). }
  pose proof (cited_field_of record _ Hin) as Hc.
  unfold field_fails, validate_field in Hc.
  cbn [field_name annotation required] in Hc.
  assert (forall q v,
            dict_get record f = Some v ->
            core_validate Float v = Ok (MFloat (Finite q)) ->
            (In f (cited_fields record) <-> (q < -1000 # 1 \/ 1000 # 1 < q)%Q))
    as Hnum.
  { intros q v Hget Hcore. rewrite Hget, Hcore, Hcheck in Hc.
    unfold validate_percentage, float_gt, float_abs in Hc.
    rewrite Hc, <- percentage_out_of_range.
    destruct (Qltb (inject_Z 1000) (Qabs q)); split; congruence. }
  split.
  - intros z Hget. destruct (int_fits_double z) eqn:Efit.
    + rewrite (Hnum (inject_Z z) (VInt z) Hget)
        by (cbn [core_validate]; now rewrite Efit).
      unfold Qlt. cbn [Qnum Qden inject_Z]. lia.
    + rewrite Hget in Hc. cbn [core_validate] in Hc. rewrite Efit in Hc.
      split; [|intros _; now apply Hc].
      intros _. unfold int_fits_double in Efit. apply Z.ltb_ge in Efit.
      pose proof double_overflow_large. lia.
  - intros q Hget. exact (Hnum q (VFloat (Finite q)) Hget eq_refl).
Qed.

Lemma dict_get_absent (r : RawRecord) (k : string) :
  ~ In k (dict_keys r) -> dict_get r k = None.
Proof.
  induction r as [|[k' v] r IH]; simpl; [reflexivity|].
  intros H. destruct (String.eqb_spec k' k) as [->|Hne].
  - contradiction H. now left.
  - apply IH. intros Hin. apply H. now right.
Qed.

Lemma drop_none_get (r : RawRecord) (k : string) :
  NoDup (dict_keys r) ->
  dict_get (drop_none r) k
  = match dict_get r k with
    | Some VNone => None
    | found => found
    end.
Proof.
  induction r as [|[k' v] r IH]; simpl; [reflexivity|].
  intros Hnd. inversion Hnd as [|? ? Hk Hr]; subst.
  destruct (String.eqb_spec k' k) as [->|Hne].
  - destruct v; simpl; rewrite ?String.eqb_refl; try reflexivity.
    rewrite (IH Hr), (dict_get_absent r k Hk). reflexivity.
  - destruct v; simpl; try (destruct (String.eqb_spec k' k); [contradiction|]);
      now apply IH.
Qed.

(** X5.  Removing the keys whose value is [None], as the synthetic generator
    does, changes neither the fields that validation cites nor the verdict,
    and leaves no [None] in the record. *)
Theorem drop_none_keeps_verdict (record : RawRecord) :
  NoDup (dict_keys record) ->
  cited_fields (drop_none record) = cited_fields record
  /\ is_valid (drop_none record) = is_valid record
  /\ Forall (fun kv => snd kv <> VNone) (drop_none record).
Proof.
  intros Hnd.
  assert (cited_fields (drop_none record) = cited_fields record) as Hc.
  { rewrite !cited_fields_failing. f_equal.
    apply filter_ext_in. intros f Hf.
    unfold field_fails, validate_field. rewrite (drop_none_get record _ Hnd).
    destruct (dict_get record (field_name f)) as [v|];
      [|now destruct (required f)].
    destruct v; try reflexivity.
    simpl in Hf. repeat (destruct Hf as [<-|Hf]; [reflexivity|]). contradiction. }
  split; [assumption|]. split; [now apply is_valid_of_cited|].
  apply Forall_forall. intros kv Hin. apply filter_In in Hin as [_ Hv].
  destruct (snd kv); discriminate.
Qed.

Lemma validate_crypto_data_ok (data : list RawRecord) :
  forallb is_valid data = true ->
  exists ms, validate_crypto_data data = Ok ms
             /\ List.length ms = List.length data.
Proof.
  induction data as [|record rest IH]; simpl.
  - intros _. now exists [].
  - intros H. apply andb_true_iff in H as [Hr Hrest].
    destruct (IH Hrest) as (ms & Hms & Hlen).
    unfold is_valid in Hr. destruct (model_validate record) as [m|]; [|discriminate].
    exists (m :: ms). simpl. rewrite Hms. simpl. now rewrite Hlen.
Qed.

Lemma validate_crypto_data_err (data : list RawRecord) (errs : list ErrorDetails) :
  validate_crypto_data data = Err errs ->
  exists good bad rest,
    data = good ++ bad :: rest
    /\ forallb is_valid good = true
    /\ model_validate bad = Err errs.
Proof.
  induction data as [|record rest IH]; simpl; [discriminate|].
  destruct (model_validate record) as [m|e] eqn:E; simpl.
  - destruct (validate_crypto_data rest) as [ms|e']; simpl; [discriminate|].
    intros [= <-]. destruct (IH eq_refl) as (good & bad & rest' & -> & Hg & Hb).
    exists (record :: good), bad, rest'. simpl. unfold is_valid at 1. rewrite E.
    now repeat split.
  - intros [= <-]. exists [], record, rest. now repeat split.
Qed.

Lemma validate_crypto_data_all_or_first_aux (data : list RawRecord) :
  (exists ms, validate_crypto_data data = Ok ms) -> forallb is_valid data = true.
Proof.
  intros (ms & Hms).
  destruct (forallb is_valid data) eqn:E; [reflexivity|].
  assert (exists errs, validate_crypto_data data = Err errs) as [errs He].
  { clear Hms. induction data as [|record rest IH]; [discriminate|].
    simpl in E |- *. unfold is_valid in E.
    destruct (model_validate record) as [m|e]; simpl in *; [|now exists e].
    destruct (IH E) as [errs ->]. now exists errs. }
  congruence.
Qed.

(** X6.  [validate_crypto_data] returns one model per record exactly when
    every record is valid; otherwise it raises with the errors of the first
    record that is not, the records after it being left unread. *)
Theorem validate_crypto_data_all_or_first (data : list RawRecord) :
  (forallb is_valid data = true <->
     exists ms, validate_crypto_data data = Ok ms
                /\ List.length ms = List.length data)
  /\ (forall errs,
        validate_crypto_data data = Err errs ->
        exists good bad rest,
          data = good ++ bad :: rest
          /\ forallb is_valid good = true
          /\ model_validate bad = Err errs).
Proof.
  split; [split|].
  - apply validate_crypto_data_ok.
  - intros (ms & Hms & _). apply validate_crypto_data_all_or_first_aux. now exists ms.
  - apply validate_crypto_data_err.
Qed.

(** X7.  [create_crypto_price_list] never trips [validate_count]: it fails
    only with the errors of an invalid record, and the list it returns has
    [count] equal to the number of records.  Built directly, a list whose
    integer [count] differs from the number of items is rejected on
    [count]. *)
Theorem price_list_count_matches (data : list RawRecord) :
  match create_crypto_price_list data with
  | Ok l =>
      forallb is_valid data = true
      /\ pl_count l = Z.of_nat (List.length data)
      /\ List.length (pl_data l) = List.length data
  | Err errs => exists bad, In bad data /\ model_validate bad = Err errs
  end
  /\ (forall items z fetched_at,
        z <> Z.of_nat (List.length items) ->
        CryptoPriceList_init items (VInt z) fetched_at
        = Err [mkError (value_error "Count must match the number of records")
                       "count" (VInt z)]).
Proof.
  split.
  - unfold create_crypto_price_list.
    destruct (validate_crypto_data data) as [ms|errs] eqn:E; cbn [bind].
    + unfold CryptoPriceList_init. cbn [core_validate]. unfold validate_count.
      rewrite Z.eqb_refl. cbn [negb pl_count pl_data].
      destruct (forallb is_valid data) eqn:Hall.
      * destruct (validate_crypto_data_ok data Hall) as (ms' & Hms & Hlen).
        rewrite E in Hms. injection Hms as <-. now rewrite Hlen.
      * exfalso.
        assert (forallb is_valid data = true); [|congruence].
        apply validate_crypto_data_all_or_first_aux. now exists ms.
    + destruct (validate_crypto_data_err data errs E) as (good & bad & rest & -> & _ & Hb).
      exists bad. split; [|assumption]. apply in_or_app. right. now left.
  - intros items z fetched_at Hz. unfold CryptoPriceList_init.
    cbn [core_validate]. unfold validate_count.
    destruct (Z.eqb_spec z (Z.of_nat (List.length items))); [contradiction|reflexivity].
Qed.

(* ------------------------------------------------------------------ *)
(** ** The legacy check and the fetch asset *)

Lemma missing_fields_none (entry : RawRecord) :
  filter (fun field => negb (has_key entry field)) legacy_required_fields = []
  <-> forallb (has_key entry) legacy_required_fields = true.
Proof.
  generalize legacy_required_fields as l.
  induction l as [|k l IH]; simpl; [easy|].
  destruct (has_key entry k); simpl; [exact IH|]. split; discriminate.
Qed.

Lemma legacy_loop_true (data : list RawRecord) :
  legacy_loop data = Ok true <->
  Forall (fun entry =>
            forallb (has_key entry) legacy_required_fields = true
            /\ py_le_zero (dict_get_default entry "current_price" (VInt 0))
               = Ok false) data.
Proof.
  induction data as [|entry rest IH]; cbn [legacy_loop].
  - split; [constructor|reflexivity].
  - pose proof (missing_fields_none entry) as Hm.
    destruct (filter (fun field => negb (has_key entry field))
                     legacy_required_fields) as [|k l].
    + destruct (py_le_zero (dict_get_default entry "current_price" (VInt 0)))
        as [[|]|e] eqn:E; cbn [bind]; split; try discriminate.
      * intros H. inversion H as [|? ? [_ Hp] _]. congruence.
      * intros H. constructor; [split; [now apply Hm|assumption]|now apply IH].
      * intros H. inversion H; subst. now apply IH.
      * intros H. inversion H as [|? ? [_ Hp] _]. congruence.
    + split; [discriminate|].
      intros H. inversion H as [|? ? [Hk _] _]. apply Hm in Hk. discriminate.
Qed.

Lemma legacy_check_accepts_aux (data : list RawRecord) :
  validate_crypto_data_legacy data = Ok true ->
  Forall (fun entry =>
            forallb (has_key entry) legacy_required_fields = true
            /\ py_le_zero (dict_get_default entry "current_price" (VInt 0))
               = Ok false) data.
Proof.
  unfold validate_crypto_data_legacy. destruct data as [|entry rest];
    [discriminate|]. apply legacy_loop_true.
Qed.

(** X8.  [validate_crypto_data_legacy] answers [True] exactly for a batch
    that is not empty and in which every entry has the five keys [id],
    [symbol], [name], [current_price], [market_cap] and a price that is a
    number above zero (a price that is not a number makes the comparison
    raise instead). *)
Theorem legacy_check_accepts (data : list RawRecord) :
  (validate_crypto_data_legacy data = Ok true <->
   data <> []
   /\ Forall (fun entry =>
                forallb (has_key entry) legacy_required_fields = true
                /\ py_le_zero (dict_get_default entry "current_price" (VInt 0))
                   = Ok false) data)
  /\ validate_crypto_data_legacy [] = Ok false.
Proof.
  split; [|reflexivity].
  unfold validate_crypto_data_legacy. destruct data as [|entry rest].
  - split; [discriminate|]. intros [H _]. now contradiction H.
  - rewrite legacy_loop_true. split; [intros H; split; [discriminate|assumption]|].
    now intros [_ H].
Qed.

Lemma dict_get_set_same (r : RawRecord) (k : string) (v : Value) :
  dict_get (dict_set r k v) k = Some v.
Proof.
  induction r as [|[k' v'] r IH]; simpl.
  - now rewrite String.eqb_refl.
  - destruct (String.eqb_spec k' k) as [->|Hne]; simpl.
    + now rewrite String.eqb_refl.
    + destruct (String.eqb_spec k' k); [contradiction|assumption].
Qed.

Lemma dict_get_set_other (r : RawRecord) (k k' : string) (v : Value) :
  k' <> k -> dict_get (dict_set r k v) k' = dict_get r k'.
Proof.
  intros Hne. induction r as [|[k0 v0] r IH]; simpl.
  - destruct (String.eqb_spec k k'); [congruence|reflexivity].
  - destruct (String.eqb_spec k0 k) as [->|Hk]; simpl.
    + destruct (String.eqb_spec k k'); [congruence|reflexivity].
    + destruct (String.eqb_spec k0 k'); [reflexivity|assumption].
Qed.

Lemma stamp_entries_spec (data : list RawRecord) :
  forall i,
    Forall2 (fun entry out =>
               (forall k, k <> "fetched_at" -> dict_get out k = dict_get entry k)
               /\ exists j, dict_get out "fetched_at" = Some (VStr (now_isoformat j)))
            data (stamp_entries i data).
Proof.
  induction data as [|entry rest IH]; intros i; simpl; constructor; [|apply IH].
  split.
  - intros k Hk. now apply dict_get_set_other.
  - exists i. apply dict_get_set_same.
Qed.

Lemma valid_has_legacy_keys (record : RawRecord) :
  is_valid record = true ->
  forallb (has_key record) legacy_required_fields = true.
Proof.
  intros Hv.
  assert (forall f, In f CryptoPrice_fields -> required f = true ->
                    has_key record (field_name f) = true) as Hreq.
  { intros f Hf Hr. destruct (is_valid_true_fields record f Hv Hf) as [m Hm].
    unfold validate_field in Hm. unfold has_key.
    destruct (dict_get record (field_name f)); [reflexivity|].
    rewrite Hr in Hm. discriminate. }
  pose proof (Hreq (mkField "id" Str true) ltac:(in_fields) eq_refl) as H1.
  pose proof (Hreq (mkField "symbol" Str true) ltac:(in_fields) eq_refl) as H2.
  pose proof (Hreq (mkField "name" Str true) ltac:(in_fields) eq_refl) as H3.
  pose proof (Hreq (mkField "current_price" Float true) ltac:(in_fields) eq_refl)
    as H4.
  pose proof (Hreq (mkField "market_cap" Int true) ltac:(in_fields) eq_refl) as H5.
  cbn [field_name] in H1, H2, H3, H4, H5.
  unfold legacy_required_fields. cbn [forallb].
  now rewrite H1, H2, H3, H4, H5.
Qed.

(** X9.  Whatever [fetch_crypto_data] returns has one entry per entry of the
    response, equal to it on every key but [fetched_at], which holds the
    time stamp; and every returned entry has the five keys of the legacy
    check, whichever of the two validations let the response through. *)
Theorem fetch_returns_stamped_entries (data out : list RawRecord) :
  fetch_crypto_data data = Ok out ->
  List.length out = List.length data
  /\ Forall2 (fun entry stamped =>
                (forall k, k <> "fetched_at" ->
                           dict_get stamped k = dict_get entry k)
                /\ exists j, dict_get stamped "fetched_at"
                             = Some (VStr (now_isoformat j)))
             data out
  /\ Forall (fun stamped =>
               forallb (has_key stamped) legacy_required_fields = true) out.
Proof.
  unfold fetch_crypto_data. cbv zeta. intros H.
  assert (Forall (fun entry =>
                    forallb (has_key entry) legacy_required_fields = true) data
          /\ out = stamp_entries 0 data) as [Hkeys ->].
  { destruct (validate_crypto_data data) as [ms|errs] eqn:E.
    - split.
      + apply Forall_forall. intros entry Hin. apply valid_has_legacy_keys.
        assert (forallb is_valid data = true) as Hall
          by (apply validate_crypto_data_all_or_first_aux; now exists ms).
        rewrite forallb_forall in Hall. now apply Hall.
      + cbn [bind] in H.
        destruct data as [|sample rest]; cbn [bind] in H; [congruence|].
        destruct (py_upper _) as [[]|]; cbn [bind] in H; [|discriminate].
        destruct (py_format_f _) as [[]|]; cbn [bind] in H; congruence.
    - destruct (validate_crypto_data_legacy data) as [[|]|e] eqn:L;
        cbn [bind negb] in H; try discriminate.
      apply legacy_check_accepts_aux in L. split.
      + apply Forall_impl with (2 := L). now intros entry [Hk _].
      + destruct data as [|sample rest]; cbn [bind] in H; [congruence|].
        destruct (py_upper _) as [[]|]; cbn [bind] in H; [|discriminate].
        destruct (py_format_f _) as [[]|]; cbn [bind] in H; congruence. }
  pose proof (stamp_entries_spec data 0) as Hs.
  split; [symmetry; now apply Forall2_length with (1 := Hs)|].
  split; [assumption|].
  clear H. revert Hkeys. induction Hs as [|entry stamped l l' [Hsame _] _ IH];
    intros Hkeys; constructor.
  - inversion Hkeys as [|? ? Hk _]; subst.
    simpl in Hk |- *. unfold has_key in *.
    rewrite !Hsame by discriminate. assumption.
  - apply IH. now inversion Hkeys.
Qed.

Lemma map_filter_and {A B : Type} (g : A -> B) (p : B -> bool)
    (q q' : A -> bool) (l : list A) :
  (forall x, In x l -> q' x = q x && p (g x)) ->
  map g (filter q' l) = filter p (map g (filter q l)).
Proof.
  induction l as [|x l IH]; intros H; simpl; [reflexivity|].
  rewrite (H x) by now left.
  assert (map g (filter q' l) = filter p (map g (filter q l))) as IH'
    by (apply IH; intros y Hy; apply H; now right).
  destruct (q x); simpl; [|assumption].
  destruct (p (g x)); simpl; now rewrite IH'.
Qed.

(** Stamping a record clears whatever was wrong with [fetched_at] and
    touches no other field. *)
Lemma stamp_cited_fields (record : RawRecord) (s : string) :
  cited_fields (dict_set record "fetched_at" (VStr s))
  = filter (fun name => negb (String.eqb name "fetched_at")) (cited_fields record).
Proof.
  rewrite !cited_fields_failing. apply map_filter_and. intros f Hf.
  destruct (String.eqb_spec (field_name f) "fetched_at") as [Hn|Hn].
  - assert (In (mkField "fetched_at" (Optional Str) false) CryptoPrice_fields)
      as Hin by in_fields.
    rewrite (field_by_name f _ Hf Hin Hn).
    unfold field_fails at 1, validate_field. cbn [field_name annotation].
    rewrite dict_get_set_same. cbn. now rewrite andb_false_r.
  - rewrite andb_true_r. apply field_fails_ext. now apply dict_get_set_other.
Qed.

Lemma stamp_keeps_valid (record : RawRecord) (s : string) :
  is_valid record = true ->
  is_valid (dict_set record "fetched_at" (VStr s)) = true.
Proof.
  intros H. apply is_valid_cited. rewrite stamp_cited_fields.
  apply is_valid_cited in H. now rewrite H.
Qed.

Lemma stamp_entries_valid (data : list RawRecord) :
  forall i, forallb is_valid data = true ->
            forallb is_valid (stamp_entries i data) = true.
Proof.
  induction data as [|entry rest IH]; intros i; simpl; [reflexivity|].
  intros H. apply andb_true_iff in H as [He Hr].
  now rewrite (stamp_keeps_valid entry _ He), (IH (S i) Hr).
Qed.

Lemma all_valid_loop (data : list RawRecord) :
  forallb is_valid data = true ->
  filter is_valid data = data /\ forall i, rejections i data = [].
Proof.
  induction data as [|record rest IH]; simpl; [now split|].
  intros H. apply andb_true_iff in H as [Hr Hrest].
  destruct (IH Hrest) as [Hf Hrej]. rewrite Hr, Hf. split; [reflexivity|].
  intros i. unfold is_valid in Hr.
  destruct (model_validate record); [apply Hrej|discriminate].
Qed.

(** X10.  Fetch, then validate: when every entry of the response is valid,
    every stamped entry is valid too, the loop rejects nothing, and the
    validation asset returns exactly what fetch returned -- except on the
    empty response, which fetch lets through and on which the validation
    asset raises [ZeroDivisionError]. *)
Theorem fetch_then_validate (data out : list RawRecord) :
  forallb is_valid data = true ->
  fetch_crypto_data data = Ok out ->
  forallb is_valid out = true
  /\ validation_loop 0 out [] [] = (out, [])
  /\ forall other,
       validate_crypto_data_asset (Some out) other
       = match data with
         | [] => Err ZeroDivisionError
         | _ :: _ => Ok out
         end.
Proof.
  intros Hall H. unfold fetch_crypto_data in H. cbv zeta in H.
  destruct (validate_crypto_data_ok data Hall) as (ms & Hms & _).
  rewrite Hms in H. cbn [bind] in H.
  assert (forallb is_valid (stamp_entries 0 data) = true) as Hout
    by now apply stamp_entries_valid.
  destruct (all_valid_loop _ Hout) as [Hf Hrej].
  destruct data as [|sample rest]; cbn [bind] in H.
  - injection H as <-. now repeat split.
  - destruct (py_upper (dict_get_default sample "symbol" (VStr "N/A")))
      as [[]|] eqn:Hup; cbn [bind] in H; [|discriminate].
    destruct (py_format_f (dict_get_default sample "current_price" (VInt 0)))
      as [[]|] eqn:Hfmt; cbn [bind] in H; [|discriminate].
    cbn [stamp_entries] in H, Hout, Hf, Hrej. injection H as <-.
    split; [assumption|].
    split; [now rewrite validation_loop_result, Hf, Hrej|].
    intros other. unfold validate_crypto_data_asset. cbn [bind].
    rewrite validation_loop_result, Hf, ?Hrej.
    cbn [List.length py_div bind log_sample_valid].
    unfold dict_get_default in *.
    rewrite !dict_get_set_other by discriminate.
    now rewrite Hup, Hfmt.
Qed.

Lemma rejections_shift (data : list RawRecord) :
  forall n i, rejections (n + i) data = map (shift_index n) (rejections i data).
Proof.
  induction data as [|record rest IH]; intros n i; simpl; [reflexivity|].
  destruct (model_validate record) as [m|errs].
  - rewrite <- IH. f_equal. lia.
  - simpl. unfold shift_index at 1. simpl. f_equal. rewrite <- IH. f_equal. lia.
Qed.

Lemma rejections_app (a b : list RawRecord) :
  forall i, rejections i (a ++ b)
            = rejections i a ++ rejections (List.length a + i) b.
Proof.
  induction a as [|record rest IH]; intros i; simpl; [reflexivity|].
  destruct (model_validate record) as [m|errs]; rewrite IH;
    simpl; repeat f_equal; lia.
Qed.

(** X11.  Each record is judged on its own: validating a batch made of two
    pieces gives the valid records of the first followed by those of the
    second, and the rejections of both, the indices of the second piece
    moved by the length of the first. *)
Theorem validation_of_concatenation (a b : list RawRecord) :
  validation_loop 0 (a ++ b) [] []
  = (fst (validation_loop 0 a [] []) ++ fst (validation_loop 0 b [] []),
     snd (validation_loop 0 a [] [])
     ++ map (shift_index (List.length a)) (snd (validation_loop 0 b [] []))).
Proof.
  rewrite !validation_loop_result. simpl fst. simpl snd.
  rewrite filter_app, rejections_app, <- rejections_shift. reflexivity.
Qed.

(** X12.  A price given as a numeric string passes the model (lax mode
    parses it), but when the first valid record of a batch has one, the
    asset raises [ValueError] from the format of its sample log line and
    returns nothing. *)
Theorem string_price_breaks_sample_log
    (raw_data : list RawRecord) (sample : RawRecord) (rest : list RawRecord)
    (s : string) (other : option (list RawRecord)) :
  filter is_valid raw_data = sample :: rest ->
  dict_get sample "current_price" = Some (VStr s) ->
  exists m, validate_crypto_data_asset (Some raw_data) other = Err (ValueError m).
Proof.
  intros Hvalid Hprice.
  assert (is_valid sample = true) as Hs.
  { assert (In sample (filter is_valid raw_data)) as Hin
      by (rewrite Hvalid; now left).
    now apply filter_In in Hin. }
  destruct (is_valid_true_fields sample (mkField "symbol" Str true) Hs)
    as [m Hm]; [in_fields|].
  destruct (str_field_value _ _ _ Hm) as [symbol Hsymbol].
  unfold validate_crypto_data_asset. cbn [bind].
  rewrite validation_loop_result, Hvalid.
  destruct raw_data as [|r0 raw']; [discriminate|].
  cbn [List.length py_div bind log_sample_valid].
  unfold dict_get_default. rewrite Hsymbol, Hprice. cbn.
  eexists. reflexivity.
Qed.

(* ------------------------------------------------------------------ *)
(** ** Further properties of the storage asset *)

Lemma mem_In (k : string) (l : list string) : mem k l = true <-> In k l.
Proof using.
  unfold mem. rewrite existsb_exists. split.
  - intros (x & Hx & Hk). apply String.eqb_eq in Hk. now subst.
  - intros H. exists k. split; [assumption|apply String.eqb_refl].
Qed.

Lemma NoDup_snoc (l : list string) (k : string) :
  NoDup l -> ~ In k l -> NoDup (l ++ [k]).
Proof using.
  induction l as [|x l IH]; simpl; intros Hnd Hk.
  - constructor; [intros []|constructor].
  - inversion Hnd as [|? ? Hx Hl]; subst. constructor.
    + rewrite in_app_iff. intros [H|[H|[]]]; [contradiction|]. apply Hk. now left.
    + apply IH; [assumption|]. intros H. apply Hk. now right.
Qed.

Lemma add_new_keys_spec (keys : list string) :
  forall seen,
    NoDup seen ->
    NoDup (add_new_keys seen keys)
    /\ forall k, In k (add_new_keys seen keys) <-> In k seen \/ In k keys.
Proof using.
  clear str_to_int str_to_float py_str is_object_dtype parse_timestamp
    db_is_null duckdb_cast DbValue datetime_now now_isoformat.
  induction keys as [|x keys IH]; intros seen Hnd; simpl.
  - split; [assumption|]. intros k. tauto.
  - destruct (mem x seen) eqn:E.
    + destruct (IH seen Hnd) as [H1 H2]. split; [assumption|].
      intros k. rewrite H2. apply mem_In in E.
      split; [tauto|]. intros [H|[<-|H]]; tauto.
    + assert (~ In x seen) as Hx by (rewrite <- mem_In; congruence).
      destruct (IH (seen ++ [x]) (NoDup_snoc _ _ Hnd Hx)) as [H1 H2].
      split; [assumption|]. intros k. rewrite H2, in_app_iff. simpl. tauto.
Qed.

Lemma fold_keys_spec (records : list RawRecord) :
  forall seen,
    NoDup seen ->
    NoDup (fold_left (fun seen r => add_new_keys seen (dict_keys r)) records seen)
    /\ forall k,
         In k (fold_left (fun seen r => add_new_keys seen (dict_keys r))
                         records seen)
         <-> In k seen \/ exists r, In r records /\ In k (dict_keys r).
Proof using.
  clear str_to_int str_to_float py_str is_object_dtype parse_timestamp
    db_is_null duckdb_cast DbValue datetime_now now_isoformat.
  induction records as [|r rest IH]; intros seen Hnd; simpl.
  - split; [assumption|]. intros k. split; [tauto|].
    intros [H|(r & [] & _)]. assumption.
  - destruct (add_new_keys_spec (dict_keys r) seen Hnd) as [H1 H2].
    destruct (IH _ H1) as [H3 H4]. split; [assumption|].
    intros k. rewrite H4, H2. split.
    + intros [[H|H]|(r' & Hr' & Hk)]; [now left| |].
      * right. exists r. split; [now left|assumption].
      * right. exists r'. split; [now right|assumption].
    + intros [H|(r' & [<-|Hr'] & Hk)]; [tauto|tauto|].
      right. now exists r'.
Qed.

(** The columns of the frame are the keys met in the batch, each once. *)
Lemma frame_columns_spec (records : list RawRecord) :
  NoDup (frame_columns records)
  /\ forall k, In k (frame_columns records)
               <-> exists r, In r records /\ In k (dict_keys r).
Proof using.
  clear str_to_int str_to_float py_str is_object_dtype parse_timestamp
    db_is_null duckdb_cast DbValue datetime_now now_isoformat.
  destruct (fold_keys_spec records [] (NoDup_nil _)) as [H1 H2].
  split; [assumption|]. intros k. unfold frame_columns. rewrite H2.
  split; [|tauto]. now intros [[]|H].
Qed.










(** X13.  A call never writes part of a batch and never touches the rows
    already stored: the rows after the call are the rows before it followed
    by either nothing or one row per record, and by one row per record
    whenever the call returns the path. *)
Theorem store_rows_all_or_nothing (records : list RawRecord) (db : Db) :
  exists new_rows,
    stored_rows (fst (store_validated_crypto_data records db))
    = stored_rows db ++ new_rows
    /\ (new_rows = [] \/ List.length new_rows = List.length records)
    /\ (forall p, snd (store_validated_crypto_data records db) = Ok p ->
                  List.length new_rows = List.length records).
Proof.
  unfold store_validated_crypto_data.
  destruct records as [|record rest].
  - exists []. simpl. rewrite app_nil_r. unfold stored_rows. simpl.
    split; [reflexivity|]. split; [now left|reflexivity].
  - set (records := record :: rest). simpl table.
    set (t0 := create_table_if_not_exists (table db)).
    assert (stored_rows db = tbl_rows t0) as Hrows.
    { unfold stored_rows, t0. now destruct (table db). }
    destruct (insert_select t0 (cleaned_frame records)) as [t1|e] eqn:E.
    + apply insert_select_ok in E as (_ & _ & new_rows & Hr & Hlen).
      rewrite cleaned_frame_rows in Hlen.
      exists new_rows. rewrite Hrows.
      destruct (log_sample_rows t1); unfold stored_rows; simpl;
        (split; [assumption|split; [now right|now intros]]).
    + exists []. rewrite Hrows, app_nil_r. unfold stored_rows. simpl.
      split; [reflexivity|]. split; [now left|discriminate].
Qed.

(** X14.  The asset returns the path for a batch that is not empty only if
    the keys met in the batch -- each counted once, whichever records hold
    them -- are as many as the columns of the table: 27 on a location where
    no table exists yet. *)
Theorem store_returns_only_for_matching_keys
    (records : list RawRecord) (db db' : Db) (p : string) :
  store_validated_crypto_data records db = (db', Ok p) ->
  records <> [] ->
  NoDup (frame_columns records)
  /\ (forall k, In k (frame_columns records)
                <-> exists r, In r records /\ In k (dict_keys r))
  /\ List.length (frame_columns records)
     = List.length (tbl_schema (create_table_if_not_exists (table db)))
  /\ (table db = None -> List.length (frame_columns records) = 27%nat).
Proof.
  intros H Hne.
  destruct (frame_columns_spec records) as [Hnd Hkeys].
  split; [assumption|]. split; [assumption|].
  assert (List.length (frame_columns records)
          = List.length (tbl_schema (create_table_if_not_exists (table db))))
    as Hlen.
  { destruct (Nat.eq_dec (List.length (frame_columns records))
                (List.length (tbl_schema (create_table_if_not_exists (table db)))))
      as [Heq|Hneq]; [assumption|].
    rewrite (store_binder_exception records db Hne Hneq) in H. discriminate. }
  split; [assumption|].
  intros Hnone. rewrite Hlen, Hnone. reflexivity.
Qed.

(** X15.  Validate, then store: when both assets return, what was validated
    is exactly the valid records of the batch, in order, and the table grows
    by their number; a rejected record never reaches the table. *)
Theorem validated_records_reach_table
    (raw_data : list RawRecord) (other : option (list RawRecord))
    (validated : list RawRecord) (db db' : Db) (p : string) :
  validate_crypto_data_asset (Some raw_data) other = Ok validated ->
  store_validated_crypto_data validated db = (db', Ok p) ->
  validated = filter is_valid raw_data
  /\ forallb is_valid validated = true
  /\ total_rows db'
     = (total_rows db + List.length (filter is_valid raw_data))%nat.
Proof.
  intros Hv Hs.
  assert (validated = filter is_valid raw_data) as ->.
  { unfold validate_crypto_data_asset in Hv. cbn [bind] in Hv.
    rewrite validation_loop_result in Hv.
    destruct (py_div _ _); cbn [bind] in Hv; [|discriminate].
    destruct (log_sample_valid _) as [[]|]; cbn [bind] in Hv; congruence. }
  split; [reflexivity|]. split.
  - apply forallb_forall. intros r Hr. now apply filter_In in Hr.
  - destruct (store_step _ _ _ _ Hs) as (_ & _ & _ & Hok).
    now destruct (Hok p eq_refl).
Qed.

End Pipeline.

(* ------------------------------------------------------------------ *)
(** ** The assets on the sample batches *)

(** A record with an empty [id] and an empty [name] is accepted: the claim
    that every accepted record has non-empty identity fields fails, whatever
    the string parsers are. *)
Lemma empty_id_and_name_accepted :
  ~ exists str_to_int str_to_float,
      forall record,
        is_valid str_to_int str_to_float record = true ->
        nonempty_string (dict_get record "id") = true
        /\ nonempty_string (dict_get record "symbol") = true
        /\ nonempty_string (dict_get record "name") = true.
Proof.
  intros (str_to_int & str_to_float & H).
  destruct (H unnamed_coin eq_refl) as [Hid _]. discriminate Hid.
Qed.

(** The record with an empty [id] and [name] is accepted, and its identity
    fields are as the theorem says. *)
Lemma valid_record_identity_fields_witness :
  is_valid sample_str_to_int sample_str_to_float unnamed_coin = true
  /\ exists id symbol name,
       dict_get unnamed_coin "id" = Some (VStr id)
       /\ dict_get unnamed_coin "symbol" = Some (VStr symbol)
       /\ dict_get unnamed_coin "name" = Some (VStr name)
       /\ re_match_symbol symbol = true
       /\ symbol <> "".
Proof.
  split; [reflexivity|].
  apply (valid_record_identity_fields sample_str_to_int sample_str_to_float
           unnamed_coin).
  reflexivity.
Defined.

(** A price of [-5.0] is rejected, citing [current_price]. *)
Lemma negative_values_rejected_witness :
  In "current_price" positive_value_fields
  /\ dict_get negative_price "current_price" = Some (VFloat (Finite (-5 # 1)))
  /\ is_valid sample_str_to_int sample_str_to_float negative_price = false
  /\ In "current_price"
        (cited_fields sample_str_to_int sample_str_to_float negative_price).
Proof.
  assert (In "current_price" positive_value_fields) as Hf by (left; reflexivity).
  split; [exact Hf|]. split; [reflexivity|].
  apply (negative_values_rejected sample_str_to_int sample_str_to_float
           negative_price "current_price" (VFloat (Finite (-5 # 1))) Hf eq_refl).
  reflexivity.
Defined.

(** The symbol ["BTC"] is rejected with the error of [validate_symbol]. *)
Lemma symbol_valid_iff_pattern_witness :
  dict_get uppercase_symbol "symbol" = Some (VStr "BTC")
  /\ is_valid sample_str_to_int sample_str_to_float uppercase_symbol = false
  /\ In (mkError (value_error "Symbol must be lowercase alphanumeric")
                 "symbol" (VStr "BTC"))
        (validation_errors sample_str_to_int sample_str_to_float uppercase_symbol).
Proof.
  split; [reflexivity|].
  apply (symbol_valid_iff_pattern sample_str_to_int sample_str_to_float
           uppercase_symbol "BTC" eq_refl).
  reflexivity.
Defined.

(** A market cap of [123.45] is rejected with [int_from_float]. *)
Lemma integer_fields_reject_fractions_witness :
  In "market_cap" integer_amount_fields
  /\ dict_get fractional_market_cap "market_cap"
     = Some (VFloat (Finite (12345 # 100)))
  /\ Q_is_integer (12345 # 100) = false
  /\ is_valid sample_str_to_int sample_str_to_float fractional_market_cap = false
  /\ In (mkError int_from_float "market_cap" (VFloat (Finite (12345 # 100))))
        (validation_errors sample_str_to_int sample_str_to_float
           fractional_market_cap).
Proof.
  assert (In "market_cap" integer_amount_fields) as Hf by (left; reflexivity).
  split; [exact Hf|]. split; [reflexivity|]. split; [reflexivity|].
  destruct (integer_fields_reject_fractions sample_str_to_int sample_str_to_float
              fractional_market_cap "market_cap" (12345 # 100) Hf eq_refl eq_refl)
    as (Hv & He & _).
  split; [exact Hv|exact He].
Defined.



(** A market cap of [-0.5] is negative and not integral, and gets one
    diagnostic, for the type: the sign is not reported. *)
Lemma one_diagnostic_for_two_violations :
  dict_get negative_fraction_cap "market_cap" = Some (VFloat (Finite (-1 # 2)))
  /\ is_negative_number (VFloat (Finite (-1 # 2))) = true
  /\ Q_is_integer (-1 # 2) = false
  /\ forall str_to_int str_to_float,
       validation_errors str_to_int str_to_float negative_fraction_cap
       = [mkError int_from_float "market_cap" (VFloat (Finite (-1 # 2)))].
Proof. repeat split. Qed.

(** One record, then two: three rows. *)
Lemma store_twice_appends_witness :
  store_validated_crypto_data sample_is_object_dtype sample_parse_timestamp
    Value is_na sample_cast [bitcoin] (fresh_location Value)
  = (fst (store_validated_crypto_data sample_is_object_dtype
            sample_parse_timestamp Value is_na sample_cast [bitcoin]
            (fresh_location Value)),
     Ok db_path)
  /\ total_rows Value
       (fst (store_validated_crypto_data sample_is_object_dtype
               sample_parse_timestamp Value is_na sample_cast [ethereum; bitcoin]
               (fst (store_validated_crypto_data sample_is_object_dtype
                       sample_parse_timestamp Value is_na sample_cast [bitcoin]
                       (fresh_location Value)))))
     = 3%nat.
Proof.
  set (store := store_validated_crypto_data sample_is_object_dtype
                  sample_parse_timestamp Value is_na sample_cast).
  assert (store [bitcoin] (fresh_location Value)
          = (fst (store [bitcoin] (fresh_location Value)), Ok db_path)) as H1
    by (vm_compute; reflexivity).
  assert (store [ethereum; bitcoin] (fst (store [bitcoin] (fresh_location Value)))
          = (fst (store [ethereum; bitcoin]
                    (fst (store [bitcoin] (fresh_location Value)))),
             Ok db_path)) as H2
    by (vm_compute; reflexivity).
  split; [exact H1|].
  exact (proj1 (store_twice_appends sample_is_object_dtype sample_parse_timestamp
                  Value is_na sample_cast [bitcoin] [ethereum; bitcoin]
                  _ _ db_path db_path H1 H2)).
Defined.

(** The diagnostics of a record that breaks two constraints, as the loop
    renders them. *)
Example two_violations_two_diagnostics :
  validation_loop sample_str_to_int sample_str_to_float sample_py_str 0
    [bitcoin; two_violations] [] []
  = ([bitcoin],
     [mkInvalid 1 two_violations
        ["Field 'symbol': BTC - Value error, Symbol must be lowercase alphanumeric";
         "Field 'current_price': -5.0 - Value error, Price and volume values must be positive"]]).
Proof. vm_compute. reflexivity. Qed.

(** With the 27 keys in the order of the upstream API the INSERT goes
    through, and binds by position: the value of [roi] is stored under
    [last_updated], and the two timestamps one column further. *)
Example positional_insert_shifts_columns :
  match table Value
          (fst (store_validated_crypto_data sample_is_object_dtype
                  sample_parse_timestamp Value is_na sample_cast [ethereum]
                  (fresh_location Value))) with
  | Some t =>
      map (fun row => (nth_error row 24, nth_error row 25, nth_error row 26))
          (tbl_rows Value t)
      = [(Some (VDict [("times", VFloat (Finite (55 # 1))); ("currency", VStr "btc")]),
          Some (VStr "2024-01-15 10:30:45"),
          Some (VStr "2024-01-15 10:31:02"))]
      /\ map fst (firstn 3 (skipn 24 (tbl_schema Value t)))
         = ["last_updated"; "fetched_at"; "roi"]
  | None => False
  end.
Proof. vm_compute. split; reflexivity. Qed.

(* ------------------------------------------------------------------ *)
(** ** The further properties on the sample batches *)

(** X1 on [bitcoin] with and without the key [sparkline]. *)
Lemma validation_reads_declared_fields_witness :
  (forall f, In f CryptoPrice_fields ->
             dict_get bitcoin (field_name f)
             = dict_get bitcoin_with_extra (field_name f))
  /\ is_valid sample_str_to_int sample_str_to_float bitcoin
     = is_valid sample_str_to_int sample_str_to_float bitcoin_with_extra.
Proof.
  assert (forall f, In f CryptoPrice_fields ->
                    dict_get bitcoin (field_name f)
                    = dict_get bitcoin_with_extra (field_name f)) as H.
  { intros f Hf. simpl in Hf.
    repeat (destruct Hf as [<-|Hf]; [reflexivity|]). contradiction. }
  split; [exact H|].
  exact (proj2 (validation_reads_declared_fields sample_str_to_int
                  sample_str_to_float bitcoin bitcoin_with_extra H)).
Defined.

(** X2 on a record without [image]. *)
Lemma absent_key_cited_iff_required_witness :
  In (mkField "image" Str true) CryptoPrice_fields
  /\ dict_get without_image "image" = None
  /\ In (mkError missing "image" (VDict without_image))
        (validation_errors sample_str_to_int sample_str_to_float without_image).
Proof.
  assert (In (mkField "image" Str true) CryptoPrice_fields) as Hf
    by (simpl; tauto).
  split; [exact Hf|]. split; [reflexivity|].
  destruct (absent_key_cited_iff_required sample_str_to_int sample_str_to_float
              without_image (mkField "image" Str true) Hf) as [Habsent _].
  destruct (Habsent eq_refl) as [_ Hreq].
  exact (proj1 (Hreq eq_refl)).
Defined.

(** X3 on a rank of zero. *)
Lemma rank_must_be_positive_witness :
  dict_get zero_rank "market_cap_rank" = Some (VInt 0)
  /\ is_valid sample_str_to_int sample_str_to_float zero_rank = false.
Proof.
  split; [reflexivity|].
  apply (rank_must_be_positive sample_str_to_int sample_str_to_float zero_rank 0
           eq_refl).
  apply Z.le_refl.
Defined.

(** X4 on a change of 1500 percent. *)
Lemma percentage_within_thousand_witness :
  In "price_change_percentage_24h" percentage_fields
  /\ dict_get wild_percentage "price_change_percentage_24h"
     = Some (VFloat (Finite (1500 # 1)))
  /\ In "price_change_percentage_24h"
        (cited_fields sample_str_to_int sample_str_to_float wild_percentage).
Proof.
  assert (In "price_change_percentage_24h" percentage_fields) as Hf
    by (left; reflexivity).
  split; [exact Hf|]. split; [reflexivity|].
  destruct (percentage_within_thousand sample_str_to_int sample_str_to_float
              wild_percentage "price_change_percentage_24h" Hf) as [_ Hq].
  apply (Hq (1500 # 1) eq_refl). right. reflexivity.
Defined.

(** X5 on [bitcoin], whose [roi] is [None]. *)
Lemma drop_none_keeps_verdict_witness :
  NoDup (dict_keys bitcoin)
  /\ is_valid sample_str_to_int sample_str_to_float (drop_none bitcoin)
     = is_valid sample_str_to_int sample_str_to_float bitcoin
  /\ dict_get (drop_none bitcoin) "roi" = None.
Proof.
  assert (NoDup (dict_keys bitcoin)) as Hnd.
  { unfold bitcoin, dict_keys. cbn [map fst].
    repeat (constructor; [cbn [In]; intuition discriminate|]). constructor. }
  split; [exact Hnd|]. split; [|reflexivity].
  exact (proj1 (proj2 (drop_none_keeps_verdict sample_str_to_int
                         sample_str_to_float bitcoin Hnd))).
Defined.

(** X9 on a response that only the legacy check lets through. *)
Lemma fetch_returns_stamped_entries_witness :
  fetch_crypto_data sample_str_to_int sample_str_to_float sample_now_isoformat
    [bitcoin; uppercase_symbol]
  = Ok (stamp_entries sample_now_isoformat 0 [bitcoin; uppercase_symbol])
  /\ Forall (fun stamped =>
               forallb (has_key stamped) legacy_required_fields = true)
            (stamp_entries sample_now_isoformat 0 [bitcoin; uppercase_symbol]).
Proof.
  assert (fetch_crypto_data sample_str_to_int sample_str_to_float
            sample_now_isoformat [bitcoin; uppercase_symbol]
          = Ok (stamp_entries sample_now_isoformat 0 [bitcoin; uppercase_symbol]))
    as H by (vm_compute; reflexivity).
  split; [exact H|].
  exact (proj2 (proj2 (fetch_returns_stamped_entries sample_str_to_int
                         sample_str_to_float sample_now_isoformat _ _ H))).
Defined.

(** X10 on a response of two valid entries. *)
Lemma fetch_then_validate_witness :
  forallb (is_valid sample_str_to_int sample_str_to_float) [bitcoin; ethereum]
  = true
  /\ fetch_crypto_data sample_str_to_int sample_str_to_float sample_now_isoformat
       [bitcoin; ethereum]
     = Ok (stamp_entries sample_now_isoformat 0 [bitcoin; ethereum])
  /\ validate_crypto_data_asset sample_str_to_int sample_str_to_float
       sample_py_str
       (Some (stamp_entries sample_now_isoformat 0 [bitcoin; ethereum])) None
     = Ok (stamp_entries sample_now_isoformat 0 [bitcoin; ethereum]).
Proof.
  assert (forallb (is_valid sample_str_to_int sample_str_to_float)
            [bitcoin; ethereum] = true) as Hall by reflexivity.
  assert (fetch_crypto_data sample_str_to_int sample_str_to_float
            sample_now_isoformat [bitcoin; ethereum]
          = Ok (stamp_entries sample_now_isoformat 0 [bitcoin; ethereum]))
    as H by (vm_compute; reflexivity).
  split; [exact Hall|]. split; [exact H|].
  exact (proj2 (proj2 (fetch_then_validate sample_str_to_int sample_str_to_float
                         sample_py_str sample_now_isoformat _ _ Hall H)) None).
Defined.

(** X12 on a batch whose first valid record has the price ["43250"]. *)
Lemma string_price_breaks_sample_log_witness :
  filter (is_valid sample_str_to_int sample_str_to_float)
         [two_violations; string_price; bitcoin]
  = [string_price; bitcoin]
  /\ dict_get string_price "current_price" = Some (VStr "43250")
  /\ exists m,
       validate_crypto_data_asset sample_str_to_int sample_str_to_float
         sample_py_str (Some [two_violations; string_price; bitcoin]) None
       = Err (ValueError m).
Proof.
  assert (filter (is_valid sample_str_to_int sample_str_to_float)
                 [two_violations; string_price; bitcoin]
          = [string_price; bitcoin]) as Hv by reflexivity.
  split; [exact Hv|]. split; [reflexivity|].
  exact (string_price_breaks_sample_log sample_str_to_int sample_str_to_float
           sample_py_str _ _ _ "43250" None Hv eq_refl).
Defined.

(** X14 on one record with the 27 keys, stored on a fresh location. *)
Lemma store_returns_only_for_matching_keys_witness :
  snd (store_validated_crypto_data sample_is_object_dtype sample_parse_timestamp
         Value is_na sample_cast [bitcoin] (fresh_location Value))
  = Ok db_path
  /\ List.length (frame_columns [bitcoin]) = 27%nat.
Proof.
  set (store := store_validated_crypto_data sample_is_object_dtype
                  sample_parse_timestamp Value is_na sample_cast).
  assert (store [bitcoin] (fresh_location Value)
          = (fst (store [bitcoin] (fresh_location Value)), Ok db_path)) as H
    by (vm_compute; reflexivity).
  split; [now rewrite H|].
  assert ([bitcoin] <> []) as Hne by discriminate.
  destruct (store_returns_only_for_matching_keys sample_is_object_dtype
              sample_parse_timestamp Value is_na sample_cast [bitcoin]
              (fresh_location Value) _ db_path H Hne) as (_ & _ & _ & H27).
  exact (H27 eq_refl).
Defined.

(** X15 on a batch of three records, one of them rejected. *)
Lemma validated_records_reach_table_witness :
  validate_crypto_data_asset sample_str_to_int sample_str_to_float sample_py_str
    (Some [bitcoin; two_violations; ethereum]) None
  = Ok [bitcoin; ethereum]
  /\ total_rows Value
       (fst (store_validated_crypto_data sample_is_object_dtype
               sample_parse_timestamp Value is_na sample_cast
               [bitcoin; ethereum] (fresh_location Value)))
     = 2%nat.
Proof.
  set (store := store_validated_crypto_data sample_is_object_dtype
                  sample_parse_timestamp Value is_na sample_cast).
  assert (validate_crypto_data_asset sample_str_to_int sample_str_to_float
            sample_py_str (Some [bitcoin; two_violations; ethereum]) None
          = Ok [bitcoin; ethereum]) as Hv by (vm_compute; reflexivity).
  assert (store [bitcoin; ethereum] (fresh_location Value)
          = (fst (store [bitcoin; ethereum] (fresh_location Value)), Ok db_path))
    as Hs by (vm_compute; reflexivity).
  split; [exact Hv|].
  destruct (validated_records_reach_table sample_str_to_int sample_str_to_float
              sample_py_str sample_is_object_dtype sample_parse_timestamp Value
              is_na sample_cast _ None _ (fresh_location Value) _ db_path Hv Hs)
    as (_ & _ & Hrows).
  rewrite Hrows. reflexivity.
Defined.
